(** * QWAK recipe recommender: hybrid similarity search and score fusion

    A shallow embedding of the Python back end
    ([backend/models/recommender_tfidf.py], [recommender_embed.py],
    [hybrid_recommender.py], [backend/utils/similarity.py],
    [backend/utils/filters.py], [backend/core/config.py]) and the
    properties of its specification that can be settled on it.

    Conventions of the embedding.
    - A Python [dict] with string keys is a [gmap string value]; a Python
      value is a [value] (None, int, float or str).
    - A score that is only stored, compared and sorted (the similarity
      scores of the back ends) is the exact rational [Q] that the float
      holds. Where the code computes with floats ([HybridScorer]) a float
      is an IEEE 754 binary64 number, with its rounding, signed zeros,
      infinities and NaN, and a numpy array carries its dtype.
    - A Python [str] is a [string] whose characters are read as the code
      points 0..255.
    - A call that may raise returns an [outcome].
    - The fitted vectorizer, the sentence encoder and the FAISS index are
      external; they are fields of the recommender records. *)

From Stdlib Require Import Ascii String ZArith QArith Qminmax Lia Lqa Sorted.
From Stdlib Require SpecFloat.
From stdpp Require Import base option list sorting strings gmap.

Local Open Scope string_scope.
Local Open Scope Z_scope.

(** ** Python values, dictionaries and exceptions *)

Inductive value : Type :=
  | VNone
  | VInt (z : Z)
  | VFloat (q : Q)
  | VStr (s : string).

Abbreviation dict := (gmap string value).

(** [d.get(k, dflt)] *)
Definition dict_get (d : dict) (k : string) (dflt : value) : value :=
  default dflt (d !! k).

Inductive exn : Type :=
  | IndexError
  | AttributeError
  | TypeError
  | ExternalError (msg : string).

Inductive outcome (A : Type) : Type :=
  | Ok (a : A)
  | Raise (e : exn).
Arguments Ok {A} a.
Arguments Raise {A} e.

#[global] Instance outcome_ret : MRet outcome := fun A a => Ok a.
#[global] Instance outcome_bind : MBind outcome := fun A B k m =>
  match m with
  | Ok a => k a
  | Raise e => Raise e
  end.

#[global] Instance outcome_fmap : FMap outcome := fun A B f m =>
  match m with
  | Ok a => Ok (f a)
  | Raise e => Raise e
  end.

(** The call raises. *)
Definition raises {A : Type} (m : outcome A) : Prop := ∃ e, m = Raise e.

(** [try: r = m  except Exception: r = dflt] *)
Definition try_except {A : Type} (m : outcome A) (dflt : A) : A :=
  match m with
  | Ok a => a
  | Raise _ => dflt
  end.

(** ** Python strings *)

Module PyStr.

(** [str.isspace] of one character, code points below 256. *)
Definition is_space (c : ascii) : bool :=
  let n := nat_of_ascii c in
  ((9 <=? n)%nat && (n <=? 13)%nat)
  || ((28 <=? n)%nat && (n <=? 32)%nat)
  || (n =? 133)%nat || (n =? 160)%nat.

(** [str.lower] of one character, code points below 256. *)
Definition lower_char (c : ascii) : ascii :=
  let n := nat_of_ascii c in
  if ((65 <=? n)%nat && (n <=? 90)%nat)
     || ((192 <=? n)%nat && (n <=? 222)%nat && negb (n =? 215)%nat)
  then ascii_of_nat (n + 32) else c.

Fixpoint lower (s : string) : string :=
  match s with
  | EmptyString => EmptyString
  | String c r => String (lower_char c) (lower r)
  end.

Fixpoint lstrip (s : string) : string :=
  match s with
  | EmptyString => EmptyString
  | String c r => if is_space c then lstrip r else s
  end.

(** Drops the trailing white space: a character is kept when something
    that is kept follows it, or when it is not white space. *)
Fixpoint rstrip (s : string) : string :=
  match s with
  | EmptyString => EmptyString
  | String c r =>
      match rstrip r with
      | EmptyString => if is_space c then EmptyString else String c EmptyString
      | r' => String c r'
      end
  end.

Definition strip (s : string) : string := rstrip (lstrip s).

(** Truth value of a string: [if s:] *)
Definition truthy (s : string) : bool :=
  match s with
  | EmptyString => false
  | String _ _ => true
  end.

Fixpoint starts_with (p s : string) : bool :=
  match p, s with
  | EmptyString, _ => true
  | String a p', String b s' => if Ascii.eqb a b then starts_with p' s' else false
  | String _ _, EmptyString => false
  end.

(** [sub in s] *)
Fixpoint contains (sub s : string) : bool :=
  starts_with sub s ||
  match s with
  | EmptyString => false
  | String _ r => contains sub r
  end.

(** [s.split(',')]: never empty, one more piece than there are commas. *)
Fixpoint split_comma (s : string) : list string :=
  match s with
  | EmptyString => [EmptyString]
  | String c r =>
      if Ascii.eqb c ","%char then EmptyString :: split_comma r
      else match split_comma r with
           | [] => [String c EmptyString]
           | p :: ps => String c p :: ps
           end
  end.

(** [sep.join(l)] *)
Fixpoint join (sep : string) (l : list string) : string :=
  match l with
  | [] => EmptyString
  | [s] => s
  | s :: r => s ++ sep ++ join sep r
  end.

End PyStr.

(** [sub] occurs in [s] as a run of consecutive characters. *)
Definition occurs_in (sub s : string) : Prop :=
  ∃ pre post : string, s = (pre ++ sub ++ post)%string.

(** ** Python sequences *)

(** [l[:n]]: a negative bound counts from the end. *)
Definition py_slice_to {A : Type} (l : list A) (n : Z) : list A :=
  if 0 <=? n then take (Z.to_nat n) l
  else take (Z.to_nat (Z.of_nat (length l) + n)) l.

(** [l[i]]: a negative index counts from the end, out of range raises. *)
Definition py_index {A : Type} (l : list A) (i : Z) : outcome A :=
  let j := if 0 <=? i then i else Z.of_nat (length l) + i in
  if 0 <=? j then
    match l !! Z.to_nat j with
    | Some a => Ok a
    | None => Raise IndexError
    end
  else Raise IndexError.

Section StableSort.
Context {A : Type} (key : A -> Q).

(** [x] is put in front of the first entry whose key is not larger: it
    came first in the list being sorted, so it stays first among equals. *)
Fixpoint insert_desc (x : A) (l : list A) : list A :=
  match l with
  | [] => [x]
  | y :: r => if Qle_bool (key y) (key x) then x :: y :: r
              else y :: insert_desc x r
  end.

(** [l.sort(key=key, reverse=True)]: Python's sort is stable, also with
    [reverse=True], and the stable arrangement of a list is unique, so
    a stable insertion sort returns the list Python returns. *)
Fixpoint sort_desc (l : list A) : list A :=
  match l with
  | [] => []
  | x :: r => insert_desc x (sort_desc r)
  end.

(** Descending order of the keys. *)
Definition desc (a b : A) : Prop := (key b <= key a)%Q.

(** The entries whose key equals [q], in the order of the list. *)
Definition with_key (q : Q) (l : list A) : list A :=
  List.filter (fun a => Qeq_bool (key a) q) l.

(** Entries with equal keys are in [after] in the order they have in
    [before] (and [after] may stop early). *)
Definition ties_keep_order (before after : list A) : Prop :=
  ∀ q, with_key q after `prefix_of` with_key q before.
End StableSort.

(** ** Settings ([backend/core/config.py]) *)

Module Config.

Record Settings : Type := {
  tfidf_weight : Q;
  embedding_weight : Q;
  max_recommendations : Z
}.

(** The global instance, with the field defaults of [class Settings]. *)
Definition settings : Settings :=
  {| tfidf_weight := 2 # 5; embedding_weight := 3 # 5; max_recommendations := 50 |}.

End Config.

(** ** What the two back ends share

    [TFIDFRecommender.get_top_recommendations] and
    [EmbeddingRecommender.get_top_recommendations] run the same loop over
    the score array and build the same result dictionary. *)

(** [v.lower()] for a value read out of a recipe: only a [str] has it. *)
Definition value_lower (v : value) : outcome string :=
  match v with
  | VStr s => Ok (PyStr.lower s)
  | _ => Raise AttributeError
  end.

(** An optional filter counts as given when it is a non-empty string. *)
Definition filter_given (f : option string) : option string :=
  match f with
  | Some s => if PyStr.truthy s then Some s else None
  | None => None
  end.

(** [cuisine_filter and recipe.get('cuisine', '').lower() != cuisine_filter.lower()] *)
Definition cuisine_rejects (cuisine_filter : option string) (recipe : dict) : outcome bool :=
  match filter_given cuisine_filter with
  | None => Ok false
  | Some f =>
      c ← value_lower (dict_get recipe "cuisine" (VStr ""));
      Ok (negb (String.eqb c (PyStr.lower f)))
  end.

(** [diet_filter and diet_filter.lower() not in recipe.get('diet_types', '').lower()] *)
Definition diet_rejects (diet_filter : option string) (recipe : dict) : outcome bool :=
  match filter_given diet_filter with
  | None => Ok false
  | Some f =>
      d ← value_lower (dict_get recipe "diet_types" (VStr ""));
      Ok (negb (PyStr.contains (PyStr.lower f) d))
  end.

(** The dictionary appended to [recommendations]. *)
Definition recommendation (recipe : dict) (idx : nat) (score : Q) : dict :=
  <["recipe_id" := dict_get recipe "id" (VInt (Z.of_nat idx))]>
  (<["title" := dict_get recipe "title" (VStr "Unknown")]>
  (<["ingredients" := dict_get recipe "ingredients_cleaned" (VStr "")]>
  (<["cuisine" := dict_get recipe "cuisine" (VStr "Unknown")]>
  (<["diet_types" := dict_get recipe "diet_types" (VStr "")]>
  (<["cooking_time" := dict_get recipe "cooking_time" (VInt 0)]>
  (<["difficulty" := dict_get recipe "difficulty" (VStr "Unknown")]>
  (<["similarity_score" := VFloat score]>
  (<["match_percentage" := VFloat (score * 100)]> ∅)))))))).

(** The dictionaries built by [recommendation]. *)
Definition is_recommendation (d : dict) : Prop :=
  ∃ recipe idx score, d = recommendation recipe idx score.

(** [for idx, score in enumerate(similarities): ...], from row [idx] on. *)
Fixpoint collect (metadata : list dict) (min_score : Q)
    (cuisine_filter diet_filter : option string)
    (idx : nat) (similarities : list Q) : outcome (list dict) :=
  match similarities with
  | [] => Ok []
  | score :: rest =>
      let continue := collect metadata min_score cuisine_filter diet_filter (S idx) rest in
      if negb (Qle_bool min_score score) then continue
      else
        match metadata !! idx with
        | None => Raise IndexError
        | Some recipe =>
            skip_c ← cuisine_rejects cuisine_filter recipe;
            if skip_c : bool then continue
            else
              skip_d ← diet_rejects diet_filter recipe;
              if skip_d : bool then continue
              else
                tail ← continue;
                Ok (recommendation recipe idx score :: tail)
        end
  end.

(** [x['similarity_score']], always a float written by [recommendation]. *)
Definition similarity_score (x : dict) : Q :=
  match x !! "similarity_score" with
  | Some (VFloat q) => q
  | Some (VInt z) => inject_Z z
  | _ => 0
  end.

(** [recommendations.sort(key=..., reverse=True); return recommendations[:top_n]] *)
Definition rank (recommendations : list dict) (top_n : Z) : list dict :=
  py_slice_to (sort_desc similarity_score recommendations) top_n.

(** [recommendations] lists rows of the corpus in ascending row number,
    each with the score of its row. *)
Definition in_row_order (metadata : list dict) (similarities : list Q)
    (recommendations : list dict) : Prop :=
  ∃ rows : list nat,
    StronglySorted lt rows
    ∧ Forall2 (fun idx d => ∃ recipe score,
                 metadata !! idx = Some recipe
                 ∧ similarities !! idx = Some score
                 ∧ d = recommendation recipe idx score)
              rows recommendations.

(** The integer under ['recipe_id']. *)
Definition recipe_id (d : dict) : Z :=
  match dict_get d "recipe_id" VNone with
  | VInt z => z
  | _ => 0
  end.

(** Adjacent entries with equal keys are in ascending order of recipe id. *)
Definition ties_by_ascending_id (key : dict -> Q) (l : list dict) : Prop :=
  ∀ (i : nat) (a b : dict),
    l !! i = Some a → l !! S i = Some b → (key a == key b)%Q →
    recipe_id a < recipe_id b.

(** The cleaning loop of [_preprocess_ingredients]. *)
Fixpoint cleaned_ingredients (ingredients : list string) : list string :=
  match ingredients with
  | [] => []
  | ingredient :: rest =>
      let cleaned := PyStr.strip (PyStr.lower ingredient) in
      if PyStr.truthy cleaned then cleaned :: cleaned_ingredients rest
      else cleaned_ingredients rest
  end.

(** [v == n] for a value and an int: a float of the same value is equal,
    [None] and strings are not. *)
Definition eq_int (v : value) (n : Z) : bool :=
  match v with
  | VInt x => Z.eqb x n
  | VFloat q => Qeq_bool q (inject_Z n)
  | _ => false
  end.

(** The loop of [get_recipe_by_id], the same in both back ends:
    [recipe.get('id') == recipe_id]. *)
Fixpoint find_recipe (metadata : list dict) (recipe_id : Z) : option dict :=
  match metadata with
  | [] => None
  | recipe :: rest =>
      if eq_int (dict_get recipe "id" VNone) recipe_id then Some recipe
      else find_recipe rest recipe_id
  end.

(** [[ing.strip() for ing in text.split(',') if ing.strip()]], for a value
    read out of a recipe: only a [str] can be split. *)
Definition stripped_pieces (v : value) : outcome (list string) :=
  match v with
  | VStr text =>
      Ok (List.filter PyStr.truthy (map PyStr.strip (PyStr.split_comma text)))
  | _ => Raise AttributeError
  end.

(** [[rec for rec in recommendations if rec['recipe_id'] != recipe_id]] *)
Definition without_recipe (recipe_id : Z) (recommendations : list dict) : list dict :=
  List.filter (fun rec => negb (eq_int (dict_get rec "recipe_id" VNone) recipe_id))
              recommendations.

(** ** The lexical back end ([backend/models/recommender_tfidf.py]) *)

Module TFIDFRecommender.

(** [load_models] is the effect of [if not self._is_loaded:
    self.load_models()]: [Ok] when the models are loaded or load now, and
    then [_recipe_metadata] is the loaded metadata; the loader's exception
    otherwise. [vectorizer_similarity text] stands for
    [cosine_similarity(self._vectorizer.transform([text]),
    self._recipe_vectors).flatten()]. *)
Record t : Type := {
  load_models : outcome unit;
  _recipe_metadata : list dict;
  vectorizer_similarity : string -> outcome (list Q)
}.

Definition _preprocess_ingredients (ingredients : list string) : string :=
  PyStr.join "," (cleaned_ingredients ingredients).

Definition compute_similarity_scores (self : t) (ingredients : list string)
    : outcome (list Q) :=
  _ ← load_models self;
  let ingredient_text := _preprocess_ingredients ingredients in
  if negb (PyStr.truthy ingredient_text)
  then Ok (replicate (length (_recipe_metadata self)) (0 : Q))
  else vectorizer_similarity self ingredient_text.

(** The list [recommendations] as it is before it is sorted. *)
Definition recommendations (self : t) (ingredients : list string)
    (min_score : Q) (cuisine_filter diet_filter : option string)
    : outcome (list dict) :=
  similarities ← compute_similarity_scores self ingredients;
  collect (_recipe_metadata self) min_score cuisine_filter diet_filter
          0 similarities.

Definition get_top_recommendations (self : t) (ingredients : list string)
    (top_n : Z) (min_score : Q) (cuisine_filter diet_filter : option string)
    : outcome (list dict) :=
  _ ← load_models self;
  recommendations ← recommendations self ingredients min_score
                      cuisine_filter diet_filter;
  Ok (rank recommendations top_n).

(** [get_recipe_by_id]: the first row whose ['id'] equals [recipe_id]. *)
Definition get_recipe_by_id (self : t) (recipe_id : Z) : outcome (option dict) :=
  _ ← load_models self;
  Ok (find_recipe (_recipe_metadata self) recipe_id).

Definition get_similar_recipes (self : t) (recipe_id : Z) (top_n : Z)
    : outcome (list dict) :=
  _ ← load_models self;
  recipe ← get_recipe_by_id self recipe_id;
  match recipe with
  | None => Ok []
  | Some recipe =>
      if bool_decide (recipe = ∅) then Ok []
      else
        ingredients ← stripped_pieces (dict_get recipe "ingredients_cleaned" (VStr ""));
        recommendations ← get_top_recommendations self ingredients (top_n + 1) 0
                            None None;
        Ok (py_slice_to (without_recipe recipe_id recommendations) top_n)
  end.

End TFIDFRecommender.

(** ** The dense back end ([backend/models/recommender_embed.py]) *)

(** [full[idx] = sim] on a numpy array. *)
Definition np_set (full : list Q) (idx : Z) (sim : Q) : outcome (list Q) :=
  let j := if 0 <=? idx then idx else Z.of_nat (length full) + idx in
  if (0 <=? j) && (j <? Z.of_nat (length full))
  then Ok (<[Z.to_nat j := sim]> full)
  else Raise IndexError.

(** What NumPy does with a float32 similarity [sim], as the index returns
    it, and a Python number. This is not the same in every NumPy: since
    NumPy 2 the Python number is rounded to float32 and the operation is
    done in float32 (so [float32(0.7) < 0.7] is false and
    [float32(0.1) * 100] is 10.0), before NumPy 2 both are taken to
    float64. The two operations that [get_top_recommendations_fast] uses
    are therefore components of the model, as the index is:
    [float32_lt sim min_score] is [sim < min_score] and
    [float32_percent sim] is [float(sim * 100)]. *)
Record float32_ops : Type := {
  float32_lt : Q -> Q -> bool;
  float32_percent : Q -> value
}.

(** The operations on similarities and thresholds that float32 holds
    exactly, and whose product with 100 it holds exactly too: there every
    NumPy gives the exact result. *)
Definition exact_float32_ops : float32_ops :=
  {| float32_lt := fun sim min_score => negb (Qle_bool min_score sim);
     float32_percent := fun sim => VFloat (sim * 100) |}.

(** The dictionary appended by [get_top_recommendations_fast]. Its [idx]
    is an entry of the index's answer and may be negative; it is the
    default of ['recipe_id']. *)
Definition fast_recommendation (np : float32_ops) (recipe : dict) (idx : Z)
    (sim : Q) : dict :=
  <["recipe_id" := dict_get recipe "id" (VInt idx)]>
  (<["title" := dict_get recipe "title" (VStr "Unknown")]>
  (<["ingredients" := dict_get recipe "ingredients_cleaned" (VStr "")]>
  (<["cuisine" := dict_get recipe "cuisine" (VStr "Unknown")]>
  (<["diet_types" := dict_get recipe "diet_types" (VStr "")]>
  (<["cooking_time" := dict_get recipe "cooking_time" (VInt 0)]>
  (<["difficulty" := dict_get recipe "difficulty" (VStr "Unknown")]>
  (<["similarity_score" := VFloat sim]>
  (<["match_percentage" := float32_percent np sim]> ∅)))))))).

(** [for sim, idx in zip(similarities[0], indices[0]): ...] with its
    [break] once [top_n] recommendations are collected. *)
Fixpoint collect_fast (np : float32_ops) (metadata : list dict) (min_score : Q)
    (cuisine_filter diet_filter : option string) (top_n : Z)
    (hits : list (Q * Z)) (recommendations : list dict) : outcome (list dict) :=
  match hits with
  | [] => Ok recommendations
  | (sim, idx) :: rest =>
      let continue :=
        collect_fast np metadata min_score cuisine_filter diet_filter top_n
                     rest recommendations in
      if float32_lt np sim min_score then continue
      else
        recipe ← py_index metadata idx;
        skip_c ← cuisine_rejects cuisine_filter recipe;
        if skip_c : bool then continue
        else
          skip_d ← diet_rejects diet_filter recipe;
          if skip_d : bool then continue
          else
            let recommendations :=
              (recommendations ++ [fast_recommendation np recipe idx sim])%list in
            if top_n <=? Z.of_nat (length recommendations) then Ok recommendations
            else collect_fast np metadata min_score cuisine_filter diet_filter top_n
                              rest recommendations
  end.

Module EmbeddingRecommender.

(** [load_models] as for the lexical back end. [faiss_search text k]
    stands for encoding [text], normalising it and
    [self._faiss_index.search(query_embedding, k)], returned as the pairs
    [zip(similarities[0], indices[0])]; [numpy] is the NumPy that the
    recommender runs on. *)
Record t : Type := {
  load_models : outcome unit;
  _recipe_metadata : list dict;
  faiss_search : string -> nat -> outcome (list (Q * Z));
  numpy : float32_ops
}.

Definition _preprocess_ingredients (ingredients : list string) : string :=
  PyStr.join " " (cleaned_ingredients ingredients).

(** [for i, (sim, idx) in enumerate(zip(...)): full_similarities[idx] = sim] *)
Fixpoint scatter (hits : list (Q * Z)) (full_similarities : list Q)
    : outcome (list Q) :=
  match hits with
  | [] => Ok full_similarities
  | (sim, idx) :: rest =>
      full ← np_set full_similarities idx sim;
      scatter rest full
  end.

Definition compute_similarity_scores (self : t) (ingredients : list string)
    : outcome (list Q * list nat) :=
  _ ← load_models self;
  let ingredient_text := _preprocess_ingredients ingredients in
  let num_recipes := length (_recipe_metadata self) in
  if negb (PyStr.truthy ingredient_text)
  then Ok (replicate num_recipes (0 : Q), seq 0 num_recipes)
  else
    hits ← faiss_search self ingredient_text num_recipes;
    full_similarities ← scatter hits (replicate num_recipes (0 : Q));
    Ok (full_similarities, seq 0 num_recipes).

(** The list [recommendations] as it is before it is sorted. *)
Definition recommendations (self : t) (ingredients : list string)
    (min_score : Q) (cuisine_filter diet_filter : option string)
    : outcome (list dict) :=
  '(similarities, _) ← compute_similarity_scores self ingredients;
  collect (_recipe_metadata self) min_score cuisine_filter diet_filter
          0 similarities.

Definition get_top_recommendations (self : t) (ingredients : list string)
    (top_n : Z) (min_score : Q) (cuisine_filter diet_filter : option string)
    : outcome (list dict) :=
  _ ← load_models self;
  let ingredient_text := _preprocess_ingredients ingredients in
  if negb (PyStr.truthy ingredient_text) then Ok []
  else
    recommendations ← recommendations self ingredients min_score
                        cuisine_filter diet_filter;
    Ok (rank recommendations top_n).

(** [get_top_recommendations_fast]. The index is asked for
    [min(top_n * 3, len(metadata))] neighbours; a count that is not
    positive reaches [faiss_search] as 0. *)
Definition get_top_recommendations_fast (self : t) (ingredients : list string)
    (top_n : Z) (min_score : Q) (cuisine_filter diet_filter : option string)
    : outcome (list dict) :=
  _ ← load_models self;
  let ingredient_text := _preprocess_ingredients ingredients in
  if negb (PyStr.truthy ingredient_text) then Ok []
  else
    let search_k := Z.min (top_n * 3) (Z.of_nat (length (_recipe_metadata self))) in
    hits ← faiss_search self ingredient_text (Z.to_nat search_k);
    collect_fast (numpy self) (_recipe_metadata self) min_score
                 cuisine_filter diet_filter top_n hits [].

Definition get_recipe_by_id (self : t) (recipe_id : Z) : outcome (option dict) :=
  _ ← load_models self;
  Ok (find_recipe (_recipe_metadata self) recipe_id).

Definition get_similar_recipes (self : t) (recipe_id : Z) (top_n : Z)
    : outcome (list dict) :=
  _ ← load_models self;
  recipe ← get_recipe_by_id self recipe_id;
  match recipe with
  | None => Ok []
  | Some recipe =>
      if bool_decide (recipe = ∅) then Ok []
      else
        ingredients ← stripped_pieces (dict_get recipe "ingredients_cleaned" (VStr ""));
        recommendations ← get_top_recommendations_fast self ingredients (top_n + 1) 0
                            None None;
        Ok (py_slice_to (without_recipe recipe_id recommendations) top_n)
  end.

End EmbeddingRecommender.

(** ** Floating-point numbers

    [HybridScorer] computes with Python floats and numpy float64 arrays:
    IEEE 754 binary64 numbers with rounding to nearest even, signed zeros,
    infinities and NaN. They are the [spec_float]s of [SpecFloat] at
    precision 53 and maximal exponent 1024. *)

Module F64.

Definition float : Type := SpecFloat.spec_float.

Definition prec : Z := 53.
Definition emax : Z := 1024.

Definition zero : float := SpecFloat.S754_zero false.
Definition nan : float := SpecFloat.S754_nan.
Definition inf : float := SpecFloat.S754_infinity false.

Definition add : float -> float -> float := SpecFloat.SFadd prec emax.
Definition sub : float -> float -> float := SpecFloat.SFsub prec emax.
Definition mul : float -> float -> float := SpecFloat.SFmul prec emax.
Definition div : float -> float -> float := SpecFloat.SFdiv prec emax.

(** [x == y], [x < y] and [x <= y]: all false when one side is NaN. *)
Definition eqb : float -> float -> bool := SpecFloat.SFeqb.
Definition ltb : float -> float -> bool := SpecFloat.SFltb.
Definition leb : float -> float -> bool := SpecFloat.SFleb.

Definition is_nan (x : float) : bool :=
  match x with
  | SpecFloat.S754_nan => true
  | _ => false
  end.

(** [float(z)] for an int, and the conversion of an int64 entry. *)
Definition of_Z (z : Z) : float := SpecFloat.binary_normalize prec emax z 0 false.

(** The float that a decimal literal of the value [q] denotes: [q] rounded
    to the nearest binary64 number. *)
Definition of_Q (q : Q) : float :=
  match Qnum q with
  | Z0 => zero
  | Zpos n =>
      SpecFloat.SFdiv prec emax (SpecFloat.S754_finite false n 0)
                                (SpecFloat.S754_finite false (Qden q) 0)
  | Zneg n =>
      SpecFloat.SFdiv prec emax (SpecFloat.S754_finite true n 0)
                                (SpecFloat.S754_finite false (Qden q) 0)
  end.

(** The rational that a finite float holds. *)
Definition to_Q (x : float) : option Q :=
  match x with
  | SpecFloat.S754_zero _ => Some 0%Q
  | SpecFloat.S754_finite s m e =>
      Some (inject_Z (if s then Zneg m else Zpos m) * (2 # 1) ^ e)%Q
  | _ => None
  end.

(** [bool(x)]: every float but the two zeros is true, NaN too. *)
Definition truthy (x : float) : bool := negb (eqb x zero).

End F64.

(** ** numpy arrays

    A one-dimensional array with its dtype. An int64 entry is an integer
    of the int64 range; integer arithmetic wraps around. *)

Inductive ndarray : Type :=
  | Int64Array (a : list Z)
  | Float64Array (a : list F64.float).

Definition wrap64 (z : Z) : Z := (z + 2 ^ 63) mod 2 ^ 64 - 2 ^ 63.

(** [len(a)] *)
Definition np_len (a : ndarray) : nat :=
  match a with
  | Int64Array l => length l
  | Float64Array l => length l
  end.

(** [a[:n]] for an [n] that is not negative *)
Definition np_take (n : nat) (a : ndarray) : ndarray :=
  match a with
  | Int64Array l => Int64Array (take n l)
  | Float64Array l => Float64Array (take n l)
  end.

(** The entries as float64, as numpy converts an array that meets a
    Python float. *)
Definition as_float64 (a : ndarray) : list F64.float :=
  match a with
  | Int64Array l => map F64.of_Z l
  | Float64Array l => l
  end.

(** One step of the reductions [np.min] and [np.max] on floats: a NaN is
    kept, and is taken over, so that an array with a NaN has the minimum
    and the maximum NaN. Of two zeros of different sign the earlier one is
    kept here; which one NumPy keeps is not specified. *)
Definition np_minimum (io1 in2 : F64.float) : F64.float :=
  if F64.leb io1 in2 || F64.is_nan io1 then io1 else in2.

Definition np_maximum (io1 in2 : F64.float) : F64.float :=
  if F64.leb in2 io1 || F64.is_nan io1 then io1 else in2.

(** [np.min] and [np.max] of the array [s :: rest]. *)
Definition np_min (s : F64.float) (rest : list F64.float) : F64.float :=
  foldl np_minimum s rest.

Definition np_max (s : F64.float) (rest : list F64.float) : F64.float :=
  foldl np_maximum s rest.

Definition np_min_int (s : Z) (rest : list Z) : Z := foldl Z.min s rest.
Definition np_max_int (s : Z) (rest : list Z) : Z := foldl Z.max s rest.

(** ** Score fusion ([backend/utils/similarity.py]) *)

(** [w or dflt] for an optional float: [None] and [0.0] are both false. *)
Definition float_or (w : option F64.float) (dflt : F64.float) : F64.float :=
  match w with
  | Some x => if F64.truthy x then x else dflt
  | None => dflt
  end.

Module HybridScorer.

Record t : Type := {
  tfidf_weight : F64.float;
  embedding_weight : F64.float;
  normalize_scores : bool
}.

(** The defaults are the floats of the settings, [F64.of_Q] of the decimal
    values in [Config]. *)
Definition __init__ (cfg : Config.Settings)
    (tfidf_weight embedding_weight : option F64.float)
    (normalize_scores : bool) : t :=
  let tw := float_or tfidf_weight (F64.of_Q (Config.tfidf_weight cfg)) in
  let ew := float_or embedding_weight (F64.of_Q (Config.embedding_weight cfg)) in
  let total_weight := F64.add tw ew in
  if F64.ltb F64.zero total_weight
  then Build_t (F64.div tw total_weight) (F64.div ew total_weight) normalize_scores
  else Build_t (F64.of_Q (1 # 2)) (F64.of_Q (1 # 2)) normalize_scores.

(** [np.full_like(scores, 0.5)] keeps the dtype of [scores]: in an int64
    array the 0.5 is stored as the integer 0. The quotient of two int64
    values is the float64 quotient of their conversions. *)
Definition normalize_score_array (scores : ndarray) : ndarray :=
  match scores with
  | Int64Array [] | Float64Array [] => scores
  | Int64Array (s :: rest) =>
      let min_score := np_min_int s rest in
      let max_score := np_max_int s rest in
      if max_score =? min_score
      then Int64Array (map (fun _ => 0) (s :: rest))
      else
        let spread := F64.of_Z (wrap64 (max_score - min_score)) in
        Float64Array
          (map (fun x => F64.div (F64.of_Z (wrap64 (x - min_score))) spread)
               (s :: rest))
  | Float64Array (s :: rest) =>
      let min_score := np_min s rest in
      let max_score := np_max s rest in
      if F64.eqb max_score min_score
      then Float64Array (map (fun _ => F64.of_Q (1 # 2)) (s :: rest))
      else
        let spread := F64.sub max_score min_score in
        Float64Array (map (fun x => F64.div (F64.sub x min_score) spread) (s :: rest))
  end.

(** The [score_info] dictionary; its [score_statistics] entry (means and
    standard deviations, reported only) is left out. *)
Record score_info : Type := {
  tfidf_available : bool;
  embedding_available : bool;
  normalization_applied : bool;
  weights : F64.float * F64.float;
  fallback_mode : option string;
  combination_method : option string
}.

(** [self.tfidf_weight * tfidf_scores + self.embedding_weight * embedding_scores]
    on two arrays of the same length: a float64 array. *)
Definition weighted (self : t) (tfidf_scores embedding_scores : ndarray) : ndarray :=
  Float64Array
    (zip_with (fun a b => F64.add (F64.mul (tfidf_weight self) a)
                                  (F64.mul (embedding_weight self) b))
              (as_float64 tfidf_scores) (as_float64 embedding_scores)).

Definition combine_scores (self : t)
    (tfidf_scores embedding_scores : option ndarray) : ndarray * score_info :=
  let info fb cm :=
    {| tfidf_available := bool_decide (is_Some tfidf_scores);
       embedding_available := bool_decide (is_Some embedding_scores);
       normalization_applied := normalize_scores self;
       weights := (tfidf_weight self, embedding_weight self);
       fallback_mode := fb;
       combination_method := cm |} in
  let norm scores :=
    if normalize_scores self then normalize_score_array scores else scores in
  match tfidf_scores, embedding_scores with
  | None, None => (Float64Array [], info None None)
  | None, Some e => (norm e, info (Some "embedding_only") None)
  | Some t, None => (norm t, info (Some "tfidf_only") None)
  | Some t, Some e =>
      let min_length := Nat.min (np_len t) (np_len e) in
      let t' := if (np_len t =? np_len e)%nat then t else np_take min_length t in
      let e' := if (np_len t =? np_len e)%nat then e else np_take min_length e in
      (weighted self (norm t') (norm e'), info None (Some "weighted_average"))
  end.

(** [rank_recipes]: both lists are cut to the shorter length, the pairs
    are sorted by score (stable, descending), each recipe is copied with
    its score under ['similarity_score'], and [top_n], when given, cuts
    the list. *)
Definition rank_recipes (recipes : list dict) (combined_scores : list Q)
    (top_n : option Z) : list dict :=
  let min_length := Nat.min (length recipes) (length combined_scores) in
  let recipes' :=
    if (length recipes =? length combined_scores)%nat then recipes
    else take min_length recipes in
  let combined_scores' :=
    if (length recipes =? length combined_scores)%nat then combined_scores
    else take min_length combined_scores in
  let recipe_score_pairs := zip recipes' combined_scores' in
  let ranked_pairs := sort_desc snd recipe_score_pairs in
  let ranked_recipes :=
    map (fun p : dict * Q => <["similarity_score" := VFloat p.2]> p.1) ranked_pairs in
  match top_n with
  | None => ranked_recipes
  | Some n => py_slice_to ranked_recipes n
  end.

End HybridScorer.

Definition create_hybrid_scorer (cfg : Config.Settings)
    (tfidf_weight embedding_weight : option F64.float) : HybridScorer.t :=
  HybridScorer.__init__ cfg tfidf_weight embedding_weight true.

(** ** Merging and ranking ([backend/models/hybrid_recommender.py]) *)

(** Equality of two dictionary keys: an int and a float of the same value
    are the same key. *)
Definition key_eqb (a b : value) : bool :=
  match a, b with
  | VNone, VNone => true
  | VInt x, VInt y => Z.eqb x y
  | VFloat x, VFloat y => Qeq_bool x y
  | VInt x, VFloat y | VFloat y, VInt x => Qeq_bool (inject_Z x) y
  | VStr x, VStr y => String.eqb x y
  | _, _ => false
  end.

(** [unique_results] keeps its keys in the order of their first insertion. *)
Fixpoint od_get (k : value) (od : list (value * dict)) : option dict :=
  match od with
  | [] => None
  | (k', d) :: r => if key_eqb k k' then Some d else od_get k r
  end.

Fixpoint od_set (k : value) (d : dict) (od : list (value * dict)) : list (value * dict) :=
  match od with
  | [] => [(k, d)]
  | (k', d') :: r => if key_eqb k k' then (k', d) :: r else (k', d') :: od_set k d r
  end.

(** A score used in arithmetic: multiplying a float by anything but a
    number raises. *)
Definition as_float (v : value) : outcome Q :=
  match v with
  | VFloat q => Ok q
  | VInt z => Ok (inject_Z z)
  | _ => Raise TypeError
  end.

(** [x.get('match_score', 0.0)] as a sort key. The back ends never write
    this key, so it is the default or a float written by the merge. *)
Definition match_score (x : dict) : Q :=
  match dict_get x "match_score" (VFloat 0) with
  | VFloat q => q
  | VInt z => inject_Z z
  | _ => 0
  end.

(** Both scores of a merged entry can be used in arithmetic. *)
Definition numeric_scores (d : dict) : Prop :=
  (∃ q, as_float (dict_get d "tfidf_score" (VFloat 0)) = Ok q)
  ∧ (∃ q, as_float (dict_get d "embedding_score" (VFloat 0)) = Ok q).

Module HybridRecommender.

Record t : Type := {
  tfidf_recommender : option TFIDFRecommender.t;
  embedding_recommender : option EmbeddingRecommender.t;
  hybrid_scorer : option HybridScorer.t;
  tfidf_weight : Q;
  embedding_weight : Q
}.

(** [tfidf] and [embedding] are what [get_tfidf_recommender()] and
    [get_embedding_recommender()] gave, [None] when the call raised. *)
Definition __init__ (cfg : Config.Settings)
    (tfidf : option TFIDFRecommender.t)
    (embedding : option EmbeddingRecommender.t) : t :=
  {| tfidf_recommender := tfidf;
     embedding_recommender := embedding;
     hybrid_scorer :=
       Some (create_hybrid_scorer cfg
               (Some (F64.of_Q (Config.tfidf_weight cfg)))
               (Some (F64.of_Q (Config.embedding_weight cfg))));
     tfidf_weight := Config.tfidf_weight cfg;
     embedding_weight := Config.embedding_weight cfg |}.

(** The copy appended to [all_results] for one back-end result. *)
Definition tagged (score_key source : string) (result : dict) : dict :=
  <["source" := VStr source]>
    (<[score_key := dict_get result "match_score" (VFloat 0)]> result).

(** One turn of [for result in all_results:]. *)
Definition merge_step (self : t) (unique_results : list (value * dict))
    (result : dict) : outcome (list (value * dict)) :=
  let recipe_id := dict_get result "id" VNone in
  match od_get recipe_id unique_results with
  | Some existing =>
      let existing :=
        if key_eqb (dict_get result "source" VNone) (VStr "tfidf")
        then <["tfidf_score" := dict_get result "tfidf_score" (VFloat 0)]> existing
        else <["embedding_score" := dict_get result "embedding_score" (VFloat 0)]> existing in
      tfidf_score ← as_float (dict_get existing "tfidf_score" (VFloat 0));
      embedding_score ← as_float (dict_get existing "embedding_score" (VFloat 0));
      Ok (od_set recipe_id
            (<["match_score" := VFloat (tfidf_weight self * tfidf_score
                                        + embedding_weight self * embedding_score)]>
               existing)
            unique_results)
  | None => Ok (unique_results ++ [(recipe_id, result)])%list
  end.

Fixpoint merge (self : t) (unique_results : list (value * dict))
    (all_results : list dict) : outcome (list (value * dict)) :=
  match all_results with
  | [] => Ok unique_results
  | result :: rest =>
      unique_results ← merge_step self unique_results result;
      merge self unique_results rest
  end.

(** [tfidf_results]: empty when the recommender is absent or its call
    raises. *)
Definition tfidf_results (self : t) (ingredients : list string)
    (cuisine_filter diet_filter : option string) (max_results : Z) : list dict :=
  match tfidf_recommender self with
  | Some r =>
      try_except (TFIDFRecommender.get_top_recommendations r ingredients
                    (max_results * 2) 0 cuisine_filter diet_filter) []
  | None => []
  end.

Definition embedding_results (self : t) (ingredients : list string)
    (cuisine_filter diet_filter : option string) (max_results : Z) : list dict :=
  match embedding_recommender self with
  | Some r =>
      try_except (EmbeddingRecommender.get_top_recommendations r ingredients
                    (max_results * 2) 0 cuisine_filter diet_filter) []
  | None => []
  end.

Definition all_results (self : t) (ingredients : list string)
    (cuisine_filter diet_filter : option string) (max_results : Z) : list dict :=
  (map (tagged "tfidf_score" "tfidf")
       (tfidf_results self ingredients cuisine_filter diet_filter max_results)
   ++ map (tagged "embedding_score" "embedding")
       (embedding_results self ingredients cuisine_filter diet_filter max_results))%list.

Definition get_recommendations (self : t) (ingredients : list string)
    (cuisine_filter diet_filter : option string) (max_results : Z)
    : outcome (list dict) :=
  unique_results ← merge self []
    (all_results self ingredients cuisine_filter diet_filter max_results);
  let combined_results := map snd unique_results in
  Ok (py_slice_to (sort_desc match_score combined_results) max_results).

Definition is_available (self : t) : bool :=
  bool_decide (is_Some (tfidf_recommender self))
  || bool_decide (is_Some (embedding_recommender self)).

End HybridRecommender.

(** A back end is unavailable for a query when its recommender is absent
    or its call raises. *)
Definition tfidf_unavailable (self : HybridRecommender.t) (ingredients : list string)
    (cuisine_filter diet_filter : option string) (max_results : Z) : Prop :=
  match HybridRecommender.tfidf_recommender self with
  | None => True
  | Some r =>
      raises (TFIDFRecommender.get_top_recommendations r ingredients
                (max_results * 2) 0 cuisine_filter diet_filter)
  end.

Definition embedding_unavailable (self : HybridRecommender.t) (ingredients : list string)
    (cuisine_filter diet_filter : option string) (max_results : Z) : Prop :=
  match HybridRecommender.embedding_recommender self with
  | None => True
  | Some r =>
      raises (EmbeddingRecommender.get_top_recommendations r ingredients
                (max_results * 2) 0 cuisine_filter diet_filter)
  end.

(** ** Filtering by row index ([backend/utils/filters.py]) *)

Definition value_strip (v : value) : outcome string :=
  match v with
  | VStr s => Ok (PyStr.strip s)
  | _ => Raise AttributeError
  end.

(** Truth value of a value: [if v:] *)
Definition value_truthy (v : value) : bool :=
  match v with
  | VNone => false
  | VInt z => negb (Z.eqb z 0)
  | VFloat q => negb (Qeq_bool q 0)
  | VStr s => PyStr.truthy s
  end.

Module RecipeFilter.

Record t : Type := { recipes_metadata : list dict }.

(** The cuisine test of [filter_recipes]: [true] when the row is kept. *)
Definition cuisine_keeps (cuisine_filter : option string) (recipe : dict)
    : outcome bool :=
  match filter_given cuisine_filter with
  | None => Ok true
  | Some f =>
      recipe_cuisine ← value_strip (dict_get recipe "cuisine" (VStr ""));
      Ok (PyStr.truthy recipe_cuisine
          && String.eqb (PyStr.lower recipe_cuisine) (PyStr.lower f))
  end.

(** [[d.strip().lower() for d in recipe_diets.split(',')]] *)
Definition diet_list (recipe_diets : string) : list string :=
  map (fun d => PyStr.lower (PyStr.strip d)) (PyStr.split_comma recipe_diets).

(** The diet test of [filter_recipes]: [true] when the row is kept. *)
Definition diet_keeps (diet_filter : option string) (recipe : dict)
    : outcome bool :=
  match filter_given diet_filter with
  | None => Ok true
  | Some f =>
      recipe_diets ← value_strip (dict_get recipe "diet_types" (VStr ""));
      Ok (PyStr.truthy recipe_diets
          && bool_decide (PyStr.lower f ∈ diet_list recipe_diets))
  end.

Fixpoint filter_recipes (self : t) (recipe_indices : list Z)
    (cuisine_filter diet_filter : option string) : outcome (list Z) :=
  match recipe_indices with
  | [] => Ok []
  | idx :: rest =>
      let continue := filter_recipes self rest cuisine_filter diet_filter in
      if Z.of_nat (length (recipes_metadata self)) <=? idx then continue
      else
        recipe ← py_index (recipes_metadata self) idx;
        keep_c ← cuisine_keeps cuisine_filter recipe;
        if negb keep_c then continue
        else
          keep_d ← diet_keeps diet_filter recipe;
          if negb keep_d then continue
          else
            tail ← continue;
            Ok (idx :: tail)
  end.

(** [calculate_match_percentage]: the share of the recipe's ingredients
    that the user has, both sides lower-cased, trimmed and taken as sets. *)
Definition calculate_match_percentage (user_ingredients : list string)
    (recipe_ingredients : string) : Q :=
  if negb (PyStr.truthy recipe_ingredients) then 0
  else
    let user_set : gset string :=
      list_to_set (map (fun i => PyStr.strip (PyStr.lower i)) user_ingredients) in
    let recipe_list :=
      map (fun i => PyStr.strip (PyStr.lower i)) (PyStr.split_comma recipe_ingredients) in
    let recipe_set : gset string := list_to_set recipe_list in
    if bool_decide (recipe_set = ∅) then 0
    else
      let matches := user_set ∩ recipe_set in
      Qmin (inject_Z (Z.of_nat (size matches)) / inject_Z (Z.of_nat (size recipe_set))) 1.

(** [calculate_match_percentage] on the value read from a recipe: a false
    value gives 0.0, and only a [str] can be split. *)
Definition match_percentage_of (user_ingredients : list string) (v : value)
    : outcome Q :=
  if negb (value_truthy v) then Ok 0%Q
  else match v with
       | VStr s => Ok (calculate_match_percentage user_ingredients s)
       | _ => Raise AttributeError
       end.

(** The scoring loop of [rank_and_score_recipes] over
    [zip(recipe_indices, similarity_scores)]. *)
Fixpoint scored_recipes (self : t) (user_ingredients : list string)
    (pairs : list (Z * Q)) : outcome (list (Z * Q * Q)) :=
  match pairs with
  | [] => Ok []
  | (idx, sim_score) :: rest =>
      if Z.of_nat (length (recipes_metadata self)) <=? idx
      then scored_recipes self user_ingredients rest
      else
        recipe ← py_index (recipes_metadata self) idx;
        match_percentage ← match_percentage_of user_ingredients
                             (dict_get recipe "ingredients_cleaned" (VStr ""));
        tail ← scored_recipes self user_ingredients rest;
        Ok ((idx, sim_score, match_percentage) :: tail)
  end.

(** A call that first checks its arguments: [ValueError] when the check
    fails, otherwise what the rest of the call does. *)
Inductive checked (A : Type) : Type :=
  | Checked (m : outcome A)
  | ValueError (msg : string).
Arguments Checked {A} m.
Arguments ValueError {A} msg.

Definition rank_and_score_recipes (self : t) (recipe_indices : list Z)
    (similarity_scores : list Q) (user_ingredients : list string)
    (max_results : Z) : checked (list (Z * Q * Q)) :=
  if negb (length recipe_indices =? length similarity_scores)%nat
  then ValueError "Recipe indices and similarity scores must have the same length"
  else Checked (
    scored ← scored_recipes self user_ingredients
               (zip recipe_indices similarity_scores);
    Ok (py_slice_to (sort_desc (fun x : Z * Q * Q => x.1.2) scored) max_results)).

(** The labels [_extract_diets] adds for one ['diet_types'] text. *)
Definition diet_labels (diet_types : string) : list string :=
  List.filter (fun diet => PyStr.truthy diet && negb (String.eqb diet "Regular"))
              (map PyStr.strip (PyStr.split_comma diet_types)).

(** The loop of [_extract_diets] over the metadata. *)
Fixpoint collect_diets (metadata : list dict) (diets : gset string)
    : outcome (gset string) :=
  match metadata with
  | [] => Ok diets
  | recipe :: rest =>
      let diet_types := dict_get recipe "diet_types" (VStr "") in
      if value_truthy diet_types then
        match diet_types with
        | VStr text => collect_diets rest (diets ∪ list_to_set (diet_labels text))
        | _ => Raise AttributeError
        end
      else collect_diets rest diets
  end.

(** [_extract_diets]: [sorted(list(diets))]. *)
Definition _extract_diets (self : t) : outcome (list string) :=
  diets ← collect_diets (recipes_metadata self) ∅;
  Ok (merge_sort String.le (elements diets)).

(** [results[a:b]] *)
Definition py_slice {A : Type} (l : list A) (a b : Z) : list A :=
  let clamp i :=
    if i <? 0 then Z.max 0 (Z.of_nat (length l) + i)
    else Z.min i (Z.of_nat (length l)) in
  take (Z.to_nat (clamp b) - Z.to_nat (clamp a)) (drop (Z.to_nat (clamp a)) l).

Record pagination_info : Type := {
  current_page : Z;
  page_size : Z;
  total_results : Z;
  total_pages : Z;
  has_next : bool;
  has_previous : bool
}.

(** [paginate_results]; [None] stands for the [ZeroDivisionError] of a
    page size of 0. *)
Definition paginate_results {A : Type} (results : list A) (page page_size : Z)
    : option (list A * pagination_info) :=
  let total_results := Z.of_nat (length results) in
  if page_size =? 0 then None
  else
    let total_pages := (total_results + page_size - 1) / page_size in
    let page :=
      if page <? 1 then 1
      else if (total_pages <? page) && (0 <? total_pages) then total_pages
      else page in
    let start_idx := (page - 1) * page_size in
    let end_idx := start_idx + page_size in
    Some (py_slice results start_idx end_idx,
          {| current_page := page;
             page_size := page_size;
             total_results := total_results;
             total_pages := total_pages;
             has_next := page <? total_pages;
             has_previous := 1 <? page |}).

End RecipeFilter.

(** ** A small corpus

    Three recipes in the shape of the metadata the test suites load; the
    ids are not the row numbers. *)

Definition sample_recipe (id : Z) (title cuisine diet_types : string) : dict :=
  <["id" := VInt id]>
  (<["title" := VStr title]>
  (<["cuisine" := VStr cuisine]>
  (<["diet_types" := VStr diet_types]> ∅))).

Definition sample_metadata : list dict :=
  [ sample_recipe 7 "Spaghetti Carbonara" "Italian" "Regular";
    sample_recipe 3 "Vegan Buddha Bowl" "Other" "Vegan,Gluten-Free";
    sample_recipe 5 "Chicken Tikka Masala" "Indian" "Regular" ].

(** A lexical index that scores the rows 0.5, 0.5 and 0.25 for any query
    with a token. *)
Definition sample_tfidf : TFIDFRecommender.t :=
  {| TFIDFRecommender.load_models := Ok ();
     TFIDFRecommender._recipe_metadata := sample_metadata;
     TFIDFRecommender.vectorizer_similarity := fun _ => Ok [1 # 2; 1 # 2; 1 # 4] |}.

(** A dense index that returns row 1, row 0 and row 2, best first. *)
Definition sample_embedding : EmbeddingRecommender.t :=
  {| EmbeddingRecommender.load_models := Ok ();
     EmbeddingRecommender._recipe_metadata := sample_metadata;
     EmbeddingRecommender.faiss_search := fun _ _ =>
       Ok [(3 # 4, 1); (1 # 2, 0); (1 # 4, 2)];
     EmbeddingRecommender.numpy := exact_float32_ops |}.

(** A dense back end whose encoder fails on every query. *)
Definition failing_embedding : EmbeddingRecommender.t :=
  {| EmbeddingRecommender.load_models := Ok ();
     EmbeddingRecommender._recipe_metadata := sample_metadata;
     EmbeddingRecommender.faiss_search := fun _ _ =>
       Raise (ExternalError "encode failed");
     EmbeddingRecommender.numpy := exact_float32_ops |}.

(** A lexical back end whose models cannot be loaded. *)
Definition failing_tfidf : TFIDFRecommender.t :=
  {| TFIDFRecommender.load_models := Raise (ExternalError "models not found");
     TFIDFRecommender._recipe_metadata := [];
     TFIDFRecommender.vectorizer_similarity := fun _ => Ok [] |}.

(** The ids of a result list, in order. *)
Definition recipe_ids (results : list dict) : list value :=
  map (fun d => dict_get d "recipe_id" VNone) results.

(** The integer ids of a result list with their scores, in order. *)
Definition scored_ids (results : list dict) : list (Z * Q) :=
  map (fun d => (recipe_id d, similarity_score d)) results.

(** ** Facts about the stable descending sort *)

Lemma Forall_of_sublist {A : Type} (P : A -> Prop) (s l : list A) :
  s `sublist_of` l → Forall P l → Forall P s.
Proof.
  induction 1 as [|y s l Hs IH|y s l Hs IH]; intros Hl.
  - done.
  - apply Forall_cons in Hl as [Hy Hl]. constructor; auto.
  - apply Forall_cons in Hl as [_ Hl]. auto.
Qed.

Section StableSortFacts.
Context {A : Type} (key : A -> Q).

Lemma insert_desc_perm (x : A) (l : list A) : insert_desc key x l ≡ₚ x :: l.
Proof.
  induction l as [|y r IH]; simpl; [done|].
  destruct (Qle_bool (key y) (key x)); [done|].
  rewrite IH. apply Permutation_swap.
Qed.

Lemma sort_desc_perm (l : list A) : sort_desc key l ≡ₚ l.
Proof.
  induction l as [|x r IH]; simpl; [done|].
  by rewrite insert_desc_perm, IH.
Qed.

Lemma sort_desc_length (l : list A) : length (sort_desc key l) = length l.
Proof. by rewrite sort_desc_perm. Qed.

Lemma insert_desc_sorted (x : A) (l : list A) :
  StronglySorted (desc key) l → StronglySorted (desc key) (insert_desc key x l).
Proof.
  induction 1 as [|y r Hr IH Hy]; simpl.
  - repeat constructor.
  - destruct (Qle_bool (key y) (key x)) eqn:E.
    + apply Qle_bool_iff in E.
      constructor; [by constructor|].
      constructor; [done|].
      eapply Forall_impl; [exact Hy|].
      unfold desc; intros z Hz; eapply Qle_trans; eauto.
    + constructor; [done|].
      rewrite insert_desc_perm. constructor; [|done].
      unfold desc. destruct (Qlt_le_dec (key x) (key y)) as [Hlt|Hle].
      * by apply Qlt_le_weak.
      * apply Qle_bool_iff in Hle. congruence.
Qed.

Lemma sort_desc_sorted (l : list A) : StronglySorted (desc key) (sort_desc key l).
Proof.
  induction l; simpl; [constructor|by apply insert_desc_sorted].
Qed.

(** Stability: among equal keys the order of the input is kept. *)
Lemma insert_desc_with_key (q : Q) (x : A) (l : list A) :
  with_key key q (insert_desc key x l) = with_key key q (x :: l).
Proof.
  induction l as [|y r IH]; [done|].
  cbn [insert_desc]. destruct (Qle_bool (key y) (key x)) eqn:E; [done|].
  unfold with_key in *. cbn [List.filter] in *. rewrite IH.
  destruct (Qeq_bool (key x) q) eqn:Ex, (Qeq_bool (key y) q) eqn:Ey; try done.
  apply Qeq_bool_iff in Ex, Ey.
  assert (Qle_bool (key y) (key x) = true); [|congruence].
  apply Qle_bool_iff. rewrite Ex, Ey. apply Qle_refl.
Qed.

Lemma sort_desc_stable (q : Q) (l : list A) :
  with_key key q (sort_desc key l) = with_key key q l.
Proof.
  induction l as [|x r IH]; [done|].
  cbn [sort_desc]. rewrite insert_desc_with_key.
  unfold with_key in *. cbn [List.filter]. by rewrite IH.
Qed.

Lemma with_key_take (q : Q) (n : nat) (l : list A) :
  with_key key q (take n l) `prefix_of` with_key key q l.
Proof.
  revert n; induction l as [|x r IH]; intros [|n]; simpl;
    try apply prefix_nil.
  unfold with_key in *; cbn [List.filter].
  destruct (Qeq_bool (key x) q); [by apply prefix_cons|done].
Qed.

(** A sub-sequence stays one when both lists are sorted. *)
Lemma insert_desc_sublist_r (x : A) (s l : list A) :
  s `sublist_of` l → s `sublist_of` insert_desc key x l.
Proof.
  intros Hs; revert s Hs. induction l as [|y r IH]; intros s Hs; simpl.
  - by apply sublist_cons.
  - destruct (Qle_bool (key y) (key x)); [by apply sublist_cons|].
    inversion Hs; subst.
    + apply sublist_skip; auto.
    + apply sublist_cons; auto.
Qed.

Lemma insert_desc_head (x : A) (l : list A) :
  Forall (fun z => key z <= key x)%Q l → insert_desc key x l = x :: l.
Proof.
  destruct 1 as [|y r Hy _]; simpl; [done|].
  apply Qle_bool_iff in Hy. by rewrite Hy.
Qed.

Lemma insert_desc_sublist (x : A) (s l : list A) :
  StronglySorted (desc key) l →
  s `sublist_of` l → insert_desc key x s `sublist_of` insert_desc key x l.
Proof.
  intros Hl Hs. induction Hs as [|y s l Hs IH|y s l Hs IH].
  - done.
  - apply StronglySorted_inv in Hl as [Hl _]. simpl.
    destruct (Qle_bool (key y) (key x)).
    + by do 2 apply sublist_skip.
    + apply sublist_skip; auto.
  - apply StronglySorted_inv in Hl as [Hl Hy]. cbn [insert_desc].
    destruct (Qle_bool (key y) (key x)) eqn:E.
    + apply Qle_bool_iff in E.
      rewrite insert_desc_head.
      * by apply sublist_skip, sublist_cons.
      * eapply Forall_impl; [eapply Forall_of_sublist; [exact Hs|exact Hy]|].
        unfold desc; intros z Hz; eapply Qle_trans; eauto.
    + apply sublist_cons; auto.
Qed.

Lemma sort_desc_sublist (s l : list A) :
  s `sublist_of` l → sort_desc key s `sublist_of` sort_desc key l.
Proof.
  induction 1 as [|y s l Hs IH|y s l Hs IH]; simpl.
  - done.
  - apply insert_desc_sublist; [apply sort_desc_sorted|done].
  - by apply insert_desc_sublist_r.
Qed.

End StableSortFacts.

(** ** Facts about slices *)

Lemma py_slice_to_prefix {A : Type} (l : list A) (n : Z) :
  py_slice_to l n `prefix_of` l.
Proof. unfold py_slice_to. case_match; apply prefix_take. Qed.

Lemma py_slice_to_nil {A : Type} (n : Z) : py_slice_to (@nil A) n = [].
Proof. unfold py_slice_to. case_match; apply take_nil. Qed.

Lemma py_slice_to_all {A : Type} (l : list A) (n : Z) :
  Z.of_nat (length l) <= n → py_slice_to l n = l.
Proof.
  intros H. unfold py_slice_to.
  destruct (0 <=? n) eqn:E; [|lia].
  apply take_ge. lia.
Qed.

Lemma with_key_slice {A : Type} (key : A -> Q) (q : Q) (l : list A) (n : Z) :
  with_key key q (py_slice_to l n) `prefix_of` with_key key q l.
Proof. unfold py_slice_to. case_match; apply with_key_take. Qed.

Example strip_ex : PyStr.strip "  Tomato  " = "Tomato".
Proof. reflexivity. Qed.
Example split_ex : PyStr.split_comma "Vegan,Gluten-Free" = ["Vegan"; "Gluten-Free"].
Proof. reflexivity. Qed.
Example contains_ex : PyStr.contains "gluten" (PyStr.lower "Vegan,Gluten-Free") = true.
Proof. reflexivity. Qed.
Example slice_ex : py_slice_to [1;2;3] (-1) = [1;2].
Proof. reflexivity. Qed.

(** * Properties *)

(** A call whose image under [f] is known has returned. *)
Lemma fmap_Ok_inv {A B : Type} (f : A → B) (m : outcome A) (b : B) :
  f <$> m = Ok b → ∃ a, m = Ok a ∧ f a = b.
Proof. destruct m as [a|e]; [|done]. intros [= <-]. by exists a. Qed.

(** ** Queries without any token *)

Lemma embedding_empty_query (self : EmbeddingRecommender.t)
    (ingredients : list string) (top_n : Z) (min_score : Q)
    (cuisine_filter diet_filter : option string) :
  cleaned_ingredients ingredients = [] →
  EmbeddingRecommender.load_models self = Ok () →
  EmbeddingRecommender.get_top_recommendations self ingredients top_n min_score
    cuisine_filter diet_filter = Ok [].
Proof.
  intros Hc Hl. unfold EmbeddingRecommender.get_top_recommendations.
  rewrite Hl. simpl.
  unfold EmbeddingRecommender._preprocess_ingredients. by rewrite Hc.
Qed.

(** C1. The dense back end answers a query without tokens with the empty
    list, but the lexical back end does not: on the sample corpus the blank
    query gets all three recipes (each with score 0), and the hybrid call
    returns one of them. Nothing is raised. *)
Theorem empty_query_lexical_not_empty :
  cleaned_ingredients ["  "; ""] = []
  ∧ recipe_ids <$> TFIDFRecommender.get_top_recommendations sample_tfidf
      ["  "; ""] 10 0 None None = Ok [VInt 7; VInt 3; VInt 5]
  ∧ recipe_ids <$> TFIDFRecommender.get_top_recommendations sample_tfidf
      [] 10 0 None None = Ok [VInt 7; VInt 3; VInt 5]
  ∧ EmbeddingRecommender.get_top_recommendations sample_embedding
      ["  "; ""] 10 0 None None = Ok []
  ∧ recipe_ids <$> HybridRecommender.get_recommendations
      (HybridRecommender.__init__ Config.settings (Some sample_tfidf) (Some sample_embedding))
      [] None None 10 = Ok [VInt 7].
Proof. repeat split; vm_compute; reflexivity. Qed.

(** ** One back end missing *)

(** C2. With the dense back end absent (or failing) the fused list is not
    the lexical ranking: for [max_results = 2] the lexical back end ranks
    recipes 7 and 3, the hybrid call returns recipe 7 alone. The same
    happens with the lexical back end failing. *)
Theorem single_backend_fusion_drops_candidates :
  recipe_ids <$> TFIDFRecommender.get_top_recommendations sample_tfidf
      ["chicken"] 2 0 None None = Ok [VInt 7; VInt 3]
  ∧ recipe_ids <$> HybridRecommender.get_recommendations
      (HybridRecommender.__init__ Config.settings (Some sample_tfidf) None)
      ["chicken"] None None 2 = Ok [VInt 7]
  ∧ recipe_ids <$> HybridRecommender.get_recommendations
      (HybridRecommender.__init__ Config.settings (Some sample_tfidf) (Some failing_embedding))
      ["chicken"] None None 2 = Ok [VInt 7]
  ∧ recipe_ids <$> EmbeddingRecommender.get_top_recommendations sample_embedding
      ["chicken"] 2 0 None None = Ok [VInt 3; VInt 7]
  ∧ recipe_ids <$> HybridRecommender.get_recommendations
      (HybridRecommender.__init__ Config.settings (Some failing_tfidf) (Some sample_embedding))
      ["chicken"] None None 2 = Ok [VInt 3].
Proof. repeat split; vm_compute; reflexivity. Qed.

(** ** Weights *)

(** With one score array missing, [combine_scores] returns the other one
    normalised and names the fallback mode. *)
Lemma combine_scores_single (self : HybridScorer.t) (scores : ndarray) :
  HybridScorer.normalize_scores self = true →
  (HybridScorer.combine_scores self (Some scores) None).1
    = HybridScorer.normalize_score_array scores
  ∧ HybridScorer.fallback_mode (HybridScorer.combine_scores self (Some scores) None).2
    = Some "tfidf_only"
  ∧ (HybridScorer.combine_scores self None (Some scores)).1
    = HybridScorer.normalize_score_array scores
  ∧ HybridScorer.fallback_mode (HybridScorer.combine_scores self None (Some scores)).2
    = Some "embedding_only".
Proof. intros Hn. simpl. by rewrite Hn. Qed.

(** C3. Two zero weights do not give 0.5 and 0.5: both are replaced by the
    settings defaults, so the effective weights are 0.4 and 0.6; and the
    pair (0, 1) gives 0.4/1.4 and 1/1.4, that is 2/7 and 5/7 up to
    rounding, which is not proportional to the inputs. *)
Theorem zero_weights_become_defaults :
  let s := HybridScorer.__init__ Config.settings
             (Some F64.zero) (Some F64.zero) true in
  let s' := HybridScorer.__init__ Config.settings
              (Some F64.zero) (Some (F64.of_Z 1)) true in
  HybridScorer.tfidf_weight s = F64.of_Q (2 # 5)
  ∧ HybridScorer.embedding_weight s = F64.of_Q (3 # 5)
  ∧ HybridScorer.tfidf_weight s ≠ F64.of_Q (1 # 2)
  ∧ HybridScorer.tfidf_weight s' = F64.div (F64.of_Q (2 # 5)) (F64.of_Q (7 # 5))
  ∧ (∃ q, F64.to_Q (HybridScorer.tfidf_weight s') = Some q
          ∧ ((2 # 7) - (1 # 2 ^ 54) <= q <= (2 # 7) + (1 # 2 ^ 54))%Q)
  ∧ HybridScorer.embedding_weight s' = F64.of_Q (5 # 7).
Proof.
  repeat split; try (vm_compute; congruence).
  eexists. split; [vm_compute; reflexivity|]. split; vm_compute; congruence.
Qed.



(** ** Both back ends missing *)

Lemma tfidf_unavailable_results (self : HybridRecommender.t) ingredients cf df n :
  tfidf_unavailable self ingredients cf df n →
  HybridRecommender.tfidf_results self ingredients cf df n = [].
Proof.
  unfold tfidf_unavailable, HybridRecommender.tfidf_results.
  destruct (HybridRecommender.tfidf_recommender self); [|done].
  intros [e He]. by rewrite He.
Qed.

Lemma embedding_unavailable_results (self : HybridRecommender.t) ingredients cf df n :
  embedding_unavailable self ingredients cf df n →
  HybridRecommender.embedding_results self ingredients cf df n = [].
Proof.
  unfold embedding_unavailable, HybridRecommender.embedding_results.
  destruct (HybridRecommender.embedding_recommender self); [|done].
  intros [e He]. by rewrite He.
Qed.

(** C4, as stated, fails: with a lexical back end that cannot load its
    models and a dense back end whose encoder fails, the hybrid call
    returns the empty list and raises nothing. *)
Lemma both_unavailable_not_raised :
  let self := HybridRecommender.__init__ Config.settings
                (Some failing_tfidf) (Some failing_embedding) in
  tfidf_unavailable self ["chicken"] None None 10
  ∧ embedding_unavailable self ["chicken"] None None 10
  ∧ HybridRecommender.get_recommendations self ["chicken"] None None 10 = Ok []
  ∧ ¬ raises (HybridRecommender.get_recommendations self ["chicken"] None None 10).
Proof.
  repeat split.
  - by eexists.
  - by eexists.
  - intros [e He]. vm_compute in He. discriminate.
Qed.

(** C4, amended. When both back ends are unavailable for a query, the
    hybrid call returns the empty list without raising, and
    [combine_scores] without any score array returns the empty array with
    both availability flags off and no fallback mode. *)
Theorem both_unavailable_returns_empty (self : HybridRecommender.t)
    (scorer : HybridScorer.t) (ingredients : list string)
    (cuisine_filter diet_filter : option string) (max_results : Z) :
  tfidf_unavailable self ingredients cuisine_filter diet_filter max_results →
  embedding_unavailable self ingredients cuisine_filter diet_filter max_results →
  HybridRecommender.get_recommendations self ingredients
    cuisine_filter diet_filter max_results = Ok []
  ∧ (HybridScorer.combine_scores scorer None None).1 = Float64Array []
  ∧ HybridScorer.tfidf_available (HybridScorer.combine_scores scorer None None).2 = false
  ∧ HybridScorer.embedding_available (HybridScorer.combine_scores scorer None None).2 = false
  ∧ HybridScorer.fallback_mode (HybridScorer.combine_scores scorer None None).2 = None.
Proof.
  intros Ht He. repeat split.
  unfold HybridRecommender.get_recommendations, HybridRecommender.all_results.
  rewrite tfidf_unavailable_results, embedding_unavailable_results by done.
  simpl. by rewrite py_slice_to_nil.
Qed.

Lemma both_unavailable_returns_empty_witness :
  let self := HybridRecommender.__init__ Config.settings
                (Some failing_tfidf) (Some failing_embedding) in
  let scorer := create_hybrid_scorer Config.settings None None in
  tfidf_unavailable self ["chicken"] None None 10
  ∧ embedding_unavailable self ["chicken"] None None 10
  ∧ HybridRecommender.get_recommendations self ["chicken"] None None 10 = Ok []
  ∧ (HybridScorer.combine_scores scorer None None).1 = Float64Array [].
Proof.
  assert (tfidf_unavailable
            (HybridRecommender.__init__ Config.settings (Some failing_tfidf) (Some failing_embedding))
            ["chicken"] None None 10) as Ht by (eexists; reflexivity).
  assert (embedding_unavailable
            (HybridRecommender.__init__ Config.settings (Some failing_tfidf) (Some failing_embedding))
            ["chicken"] None None 10) as He by (eexists; reflexivity).
  pose proof (both_unavailable_returns_empty _
                (create_hybrid_scorer Config.settings None None) _ _ _ _ Ht He)
    as (H1 & H2 & _).
  exact (conj Ht (conj He (conj H1 H2))).
Defined.

(** ** Min-max normalisation *)

Lemma np_min_int_replicate (z : Z) (n : nat) : np_min_int z (replicate n z) = z.
Proof.
  unfold np_min_int. induction n as [|n IH]; simpl; [done|].
  by rewrite Z.min_id.
Qed.

Lemma np_max_int_replicate (z : Z) (n : nat) : np_max_int z (replicate n z) = z.
Proof.
  unfold np_max_int. induction n as [|n IH]; simpl; [done|].
  by rewrite Z.max_id.
Qed.

Lemma map_const_replicate {A B : Type} (b : B) (a : A) (n : nat) :
  map (fun _ => b) (replicate n a) = replicate n b.
Proof. induction n as [|n IH]; simpl; [done|]. by rewrite IH. Qed.

(** A number that is not NaN compares equal to itself. *)
Lemma SFcompare_refl (x : F64.float) :
  F64.is_nan x = false → SpecFloat.SFcompare x x = Some Eq.
Proof.
  destruct x as [[|]|[|]| |[|] m e]; simpl; try done; intros _;
    by rewrite Z.compare_refl, Pos.compare_cont_refl.
Qed.

Lemma np_min_replicate (x : F64.float) (n : nat) :
  F64.is_nan x = false → np_min x (replicate n x) = x.
Proof.
  intros Hx. unfold np_min. induction n as [|n IH]; simpl; [done|].
  unfold np_minimum at 2, F64.leb, SpecFloat.SFleb.
  by rewrite SFcompare_refl.
Qed.

Lemma np_max_replicate (x : F64.float) (n : nat) :
  F64.is_nan x = false → np_max x (replicate n x) = x.
Proof.
  intros Hx. unfold np_max. induction n as [|n IH]; simpl; [done|].
  unfold np_maximum at 2, F64.leb, SpecFloat.SFleb.
  by rewrite SFcompare_refl.
Qed.

(** What the claim says of an array of equal entries holds for a float64
    array: every entry becomes 0.5. *)
Lemma normalize_float_all_equal (x : F64.float) (n : nat) :
  F64.is_nan x = false →
  HybridScorer.normalize_score_array (Float64Array (replicate (S n) x))
  = Float64Array (replicate (S n) (F64.of_Q (1 # 2))).
Proof.
  intros Hx. cbn [replicate HybridScorer.normalize_score_array].
  rewrite np_min_replicate, np_max_replicate by done.
  unfold F64.eqb, SpecFloat.SFeqb. rewrite SFcompare_refl by done.
  cbn [map]. by rewrite map_const_replicate.
Qed.

(** C8. [normalize_score_array] does not return 0.5 for every array whose
    minimum equals its maximum, and does not return values in [0, 1] for
    every other array. An int64 array of equal entries, of any length, is
    turned into zeros: [np.full_like] keeps the integer dtype. And in the
    float64 array [1e308, -1e308, 0.0] the spread overflows, which gives
    [nan, 0.0, 0.0]. *)
Theorem normalize_score_array_not_min_max :
  (∀ (z : Z) (n : nat),
     HybridScorer.normalize_score_array (Int64Array (replicate (S n) z))
     = Int64Array (replicate (S n) 0))
  ∧ HybridScorer.normalize_score_array
      (Float64Array [F64.of_Z (10 ^ 308); F64.of_Z (- 10 ^ 308); F64.zero])
    = Float64Array [F64.nan; F64.zero; F64.zero].
Proof.
  split.
  - intros z n. cbn [replicate HybridScorer.normalize_score_array].
    rewrite np_min_int_replicate, np_max_int_replicate, Z.eqb_refl.
    cbn [map]. by rewrite map_const_replicate.
  - vm_compute. reflexivity.
Qed.

(** ** What the back ends return *)

Lemma collect_recommendations metadata min_score cf df idx sims l :
  collect metadata min_score cf df idx sims = Ok l → Forall is_recommendation l.
Proof.
  revert idx l; induction sims as [|score rest IH]; intros idx l; simpl.
  - intros [= <-]. constructor.
  - destruct (negb (Qle_bool min_score score)); [apply IH|].
    destruct (metadata !! idx) as [recipe|]; [|done].
    destruct (cuisine_rejects cf recipe) as [[|]|]; simpl; [apply IH| |done].
    destruct (diet_rejects df recipe) as [[|]|]; simpl; [apply IH| |done].
    destruct (collect metadata min_score cf df (S idx) rest) as [tail|] eqn:E;
      simpl; [|done].
    intros [= <-]. constructor; [by repeat eexists|by eapply IH].
Qed.

Lemma rank_Forall (P : dict → Prop) (l : list dict) (n : Z) :
  Forall P l → Forall P (rank l n).
Proof.
  intros Hl. unfold rank.
  destruct (py_slice_to_prefix (sort_desc similarity_score l) n) as [k Hk].
  assert (Forall P (sort_desc similarity_score l)) as Hs
    by (by rewrite sort_desc_perm).
  rewrite Hk in Hs. by apply Forall_app in Hs as [? _].
Qed.

Lemma tfidf_returns_recommendations self ingredients top_n min_score cf df out :
  TFIDFRecommender.get_top_recommendations self ingredients top_n min_score cf df
    = Ok out →
  Forall is_recommendation out.
Proof.
  unfold TFIDFRecommender.get_top_recommendations, TFIDFRecommender.recommendations.
  destruct (TFIDFRecommender.load_models self); simpl; [|done].
  destruct (TFIDFRecommender.compute_similarity_scores self ingredients)
    as [sims|]; simpl; [|done].
  destruct (collect _ _ _ _ _ sims) as [recs|] eqn:E; simpl; [|done].
  intros [= <-]. eapply rank_Forall, collect_recommendations, E.
Qed.

Lemma embedding_returns_recommendations self ingredients top_n min_score cf df out :
  EmbeddingRecommender.get_top_recommendations self ingredients top_n min_score cf df
    = Ok out →
  Forall is_recommendation out.
Proof.
  unfold EmbeddingRecommender.get_top_recommendations,
    EmbeddingRecommender.recommendations.
  destruct (EmbeddingRecommender.load_models self); simpl; [|done].
  destruct (negb _); [by intros [= <-]|].
  destruct (EmbeddingRecommender.compute_similarity_scores self ingredients)
    as [[sims ?]|]; simpl; [|done].
  destruct (collect _ _ _ _ _ sims) as [recs|] eqn:E; simpl; [|done].
  intros [= <-]. eapply rank_Forall, collect_recommendations, E.
Qed.

(** ** The merge key *)

(** No result of a back end has an ['id'] entry: the id is under
    ['recipe_id']. *)
Lemma recommendation_has_no_id (d : dict) :
  is_recommendation d → d !! "id" = None.
Proof. intros (recipe & idx & score & ->). done. Qed.

Lemma tagged_has_no_id (source : string) (d : dict) :
  is_recommendation d →
  dict_get (HybridRecommender.tagged "tfidf_score" source d) "id" VNone = VNone
  ∧ dict_get (HybridRecommender.tagged "embedding_score" source d) "id" VNone = VNone.
Proof.
  intros Hd%recommendation_has_no_id.
  unfold dict_get, HybridRecommender.tagged.
  by rewrite !lookup_insert_ne, Hd by done.
Qed.

Lemma all_results_have_no_id self ingredients cf df n :
  Forall (fun d => dict_get d "id" VNone = VNone)
         (HybridRecommender.all_results self ingredients cf df n).
Proof.
  unfold HybridRecommender.all_results. apply Forall_app; split.
  - apply Forall_fmap. eapply Forall_impl;
      [|intros d Hd; exact (proj1 (tagged_has_no_id "tfidf" d Hd))].
    unfold HybridRecommender.tfidf_results.
    destruct (HybridRecommender.tfidf_recommender self) as [r|]; [|constructor].
    destruct (TFIDFRecommender.get_top_recommendations _ _ _ _ _ _) eqn:E;
      simpl; [|constructor].
    by eapply tfidf_returns_recommendations.
  - apply Forall_fmap. eapply Forall_impl;
      [|intros d Hd; exact (proj2 (tagged_has_no_id "embedding" d Hd))].
    unfold HybridRecommender.embedding_results.
    destruct (HybridRecommender.embedding_recommender self) as [r|]; [|constructor].
    destruct (EmbeddingRecommender.get_top_recommendations _ _ _ _ _ _) eqn:E;
      simpl; [|constructor].
    by eapply embedding_returns_recommendations.
Qed.

Lemma merge_one_key self od results od' :
  Forall (fun d => dict_get d "id" VNone = VNone) results →
  (length od ≤ 1)%nat → Forall (fun kd => kd.1 = VNone) od →
  HybridRecommender.merge self od results = Ok od' →
  (length od' ≤ 1)%nat.
Proof.
  intros Hr; revert od; induction Hr as [|d results Hd Hr IH];
    intros od Hlen Hkeys; simpl.
  - by intros [= <-].
  - unfold HybridRecommender.merge_step. rewrite Hd.
    destruct od as [|[k e] [|? ?]]; simpl in *; [| |lia].
    + apply IH; simpl; [lia|by repeat constructor].
    + apply Forall_cons in Hkeys as [Hk _]; simpl in Hk; subst k. simpl.
      destruct (as_float (dict_get _ "tfidf_score" _)); cbn; [|done].
      destruct (as_float (dict_get _ "embedding_score" _)); cbn; [|done].
      apply IH; simpl; [lia|by repeat constructor].
Qed.

(** Whatever the back ends return, the fused list never has more than one
    entry. *)
Lemma fused_at_most_one self ingredients cf df n out :
  HybridRecommender.get_recommendations self ingredients cf df n = Ok out →
  (length out ≤ 1)%nat.
Proof.
  unfold HybridRecommender.get_recommendations.
  destruct (HybridRecommender.merge self [] _) as [ur|] eqn:E; simpl; [|done].
  intros [= <-].
  apply merge_one_key in E;
    [|apply all_results_have_no_id|simpl; lia|constructor].
  etransitivity; [apply prefix_length, py_slice_to_prefix|].
  by rewrite sort_desc_length, length_map.
Qed.

(** C5. The merge is keyed on ['id'], which no back-end result has: on the
    sample corpus both back ends return the recipes 7, 3 and 5, every one
    of the six candidates gets the key [None], and they are all merged
    into the first of them, so the fused list is recipe 7 alone; its two
    scores are read from ['match_score'], which no back end writes either,
    and are 0.0. *)
Theorem distinct_recipes_merged_into_one :
  let self := HybridRecommender.__init__ Config.settings
                (Some sample_tfidf) (Some sample_embedding) in
  recipe_ids (HybridRecommender.tfidf_results self ["chicken"] None None 10)
    = [VInt 7; VInt 3; VInt 5]
  ∧ recipe_ids (HybridRecommender.embedding_results self ["chicken"] None None 10)
    = [VInt 3; VInt 7; VInt 5]
  ∧ map (fun d => dict_get d "id" VNone)
        (HybridRecommender.all_results self ["chicken"] None None 10)
    = [VNone; VNone; VNone; VNone; VNone; VNone]
  ∧ recipe_ids <$> HybridRecommender.get_recommendations self
      ["chicken"] None None 10 = Ok [VInt 7]
  ∧ (fun d => (dict_get d "tfidf_score" VNone, dict_get d "embedding_score" VNone))
      <$> (HybridRecommender.get_recommendations self ["chicken"] None None 10
           ≫= fun out => py_index out 0)
    = Ok (VFloat 0, VFloat 0).
Proof. repeat split; vm_compute; reflexivity. Qed.

(** ** Cuisine and diet filters *)

Lemma lower_truthy (s : string) : PyStr.truthy (PyStr.lower s) = PyStr.truthy s.
Proof. by destruct s. Qed.

(** What [filter_recipes] does with a diet filter: the row is kept exactly
    when the lower-cased filter is one of the recipe's labels. *)
Lemma filter_recipes_diet_exact (f diets : string) (recipe : dict) :
  PyStr.truthy f = true →
  recipe !! "diet_types" = Some (VStr diets) →
  ∃ b, RecipeFilter.diet_keeps (Some f) recipe = Ok b
       ∧ (b = true ↔ PyStr.lower f ∈ RecipeFilter.diet_list (PyStr.strip diets)).
Proof.
  intros Hf Hd. unfold RecipeFilter.diet_keeps, dict_get. simpl.
  rewrite Hf, Hd. simpl. eexists; split; [done|].
  destruct (PyStr.strip diets) as [|c r] eqn:E; simpl.
  - split; [done|]. intros Hin. exfalso.
    apply list_elem_of_singleton in Hin.
    rewrite <- lower_truthy in Hf. by rewrite Hin in Hf.
  - by rewrite bool_decide_eq_true.
Qed.

(** C7. The two back ends test the diet filter as a sub-string of the
    whole ['diet_types'] text: the filter ["Gluten"] keeps the recipe
    labelled ["Vegan,Gluten-Free"], although ["gluten"] is none of its
    labels, and [filter_recipes] rejects that recipe. The cuisine filter
    is an equality up to case in all three. *)
Theorem diet_filter_is_substring_test :
  recipe_ids <$> TFIDFRecommender.get_top_recommendations sample_tfidf
      ["chicken"] 10 0 None (Some "Gluten") = Ok [VInt 3]
  ∧ recipe_ids <$> EmbeddingRecommender.get_top_recommendations sample_embedding
      ["chicken"] 10 0 None (Some "Gluten") = Ok [VInt 3]
  ∧ RecipeFilter.diet_list "Vegan,Gluten-Free" = ["vegan"; "gluten-free"]
  ∧ RecipeFilter.filter_recipes {| RecipeFilter.recipes_metadata := sample_metadata |}
      [0; 1; 2] None (Some "Gluten") = Ok []
  ∧ RecipeFilter.filter_recipes {| RecipeFilter.recipes_metadata := sample_metadata |}
      [0; 1; 2] None (Some "gluten-free") = Ok [1]
  ∧ recipe_ids <$> TFIDFRecommender.get_top_recommendations sample_tfidf
      ["chicken"] 10 0 (Some "ITALIAN") None = Ok [VInt 7]
  ∧ RecipeFilter.filter_recipes {| RecipeFilter.recipes_metadata := sample_metadata |}
      [0; 1; 2] (Some "ITALIAN") None = Ok [0].
Proof. repeat split; vm_compute; reflexivity. Qed.

(** ** Order of the results *)

Lemma rows_from_next (metadata : list dict) (score : Q) (rest : list Q)
    (idx : nat) (rows : list nat) (l : list dict) :
  Forall (fun i => S idx ≤ i)%nat rows →
  Forall2 (fun i d => ∃ recipe s,
             metadata !! i = Some recipe
             ∧ rest !! (i - S idx)%nat = Some s
             ∧ d = recommendation recipe i s) rows l →
  Forall2 (fun i d => ∃ recipe s,
             metadata !! i = Some recipe
             ∧ (score :: rest) !! (i - idx)%nat = Some s
             ∧ d = recommendation recipe i s) rows l.
Proof.
  intros Hge H2. induction H2 as [|i d rows l (recipe & s & Hm & Hs & ->) H2 IH].
  - constructor.
  - apply Forall_cons in Hge as [Hi Hge].
    constructor; [|by apply IH].
    exists recipe, s. repeat split; [done|].
    replace (i - idx)%nat with (S (i - S idx)) by lia. done.
Qed.

Lemma collect_rows metadata min_score cf df idx sims l :
  collect metadata min_score cf df idx sims = Ok l →
  ∃ rows : list nat,
    StronglySorted lt rows
    ∧ Forall (fun i => idx ≤ i)%nat rows
    ∧ Forall2 (fun i d => ∃ recipe s,
                 metadata !! i = Some recipe
                 ∧ sims !! (i - idx)%nat = Some s
                 ∧ d = recommendation recipe i s) rows l.
Proof.
  revert idx l; induction sims as [|score rest IH]; intros idx l; simpl.
  { intros [= <-]. exists []. repeat constructor. }
  assert (∀ l', collect metadata min_score cf df (S idx) rest = Ok l' →
            ∃ rows, StronglySorted lt rows
              ∧ Forall (fun i => S idx ≤ i)%nat rows
              ∧ Forall2 (fun i d => ∃ recipe s,
                   metadata !! i = Some recipe
                   ∧ (score :: rest) !! (i - idx)%nat = Some s
                   ∧ d = recommendation recipe i s) rows l') as Hnext.
  { intros l' (rows & Hs & Hge & H2)%IH.
    exists rows. repeat split; [done..|by apply rows_from_next]. }
  assert (∀ l', collect metadata min_score cf df (S idx) rest = Ok l' →
            ∃ rows, StronglySorted lt rows
              ∧ Forall (fun i => idx ≤ i)%nat rows
              ∧ Forall2 (fun i d => ∃ recipe s,
                   metadata !! i = Some recipe
                   ∧ (score :: rest) !! (i - idx)%nat = Some s
                   ∧ d = recommendation recipe i s) rows l') as Hskip.
  { intros l' (rows & Hs & Hge & H2)%Hnext.
    exists rows. repeat split; [done| |done].
    eapply Forall_impl; [exact Hge|]. simpl; lia. }
  destruct (negb (Qle_bool min_score score)); [apply Hskip|].
  destruct (metadata !! idx) as [recipe|] eqn:Hm; [|done].
  destruct (cuisine_rejects cf recipe) as [[|]|]; simpl; [apply Hskip| |done].
  destruct (diet_rejects df recipe) as [[|]|]; simpl; [apply Hskip| |done].
  destruct (collect metadata min_score cf df (S idx) rest) as [tail|] eqn:E;
    simpl; [|done].
  intros [= <-]. destruct (Hnext tail eq_refl) as (rows & Hs & Hge & H2).
  exists (idx :: rows). repeat split.
  - constructor; [done|]. eapply Forall_impl; [exact Hge|]. simpl; lia.
  - constructor; [lia|]. eapply Forall_impl; [exact Hge|]. simpl; lia.
  - constructor; [|done]. exists recipe, score.
    repeat split; [done|]. by rewrite Nat.sub_diag.
Qed.

Lemma collect_in_row_order metadata min_score cf df sims l :
  collect metadata min_score cf df 0 sims = Ok l → in_row_order metadata sims l.
Proof.
  intros (rows & Hs & _ & H2)%collect_rows. exists rows. split; [done|].
  eapply Forall2_impl; [exact H2|].
  intros i d (recipe & s & Hm & Hsim & ->). rewrite Nat.sub_0_r in Hsim. eauto.
Qed.

Lemma StronglySorted_prefix {A : Type} (R : relation A) (l k : list A) :
  l `prefix_of` k → StronglySorted R k → StronglySorted R l.
Proof. intros [k' ->]. apply StronglySorted_app_1_l. Qed.

Lemma sorted_slice {A : Type} (key : A -> Q) (l : list A) (n : Z) :
  StronglySorted (desc key) (py_slice_to (sort_desc key l) n)
  ∧ ties_keep_order key l (py_slice_to (sort_desc key l) n).
Proof.
  split.
  - eapply StronglySorted_prefix; [apply py_slice_to_prefix|apply sort_desc_sorted].
  - intros q. rewrite <- (sort_desc_stable key q l). apply with_key_slice.
Qed.

(** C6, as stated, fails: on the sample corpus the lexical back end returns
    the recipes 7, 3 and 5 with the scores 0.5, 0.5 and 0.25; the first two
    have equal scores and the larger id comes first. *)
Lemma equal_scores_not_in_id_order :
  ∃ out,
    TFIDFRecommender.get_top_recommendations sample_tfidf
      ["chicken"] 10 0 None None = Ok out
    ∧ scored_ids out = [(7, (1 # 2)%Q); (3, (1 # 2)%Q); (5, (1 # 4)%Q)]
    ∧ ¬ ties_by_ascending_id similarity_score out.
Proof.
  assert (scored_ids <$> TFIDFRecommender.get_top_recommendations sample_tfidf
            ["chicken"] 10 0 None None
          = Ok [(7, (1 # 2)%Q); (3, (1 # 2)%Q); (5, (1 # 4)%Q)]) as H
    by (vm_compute; reflexivity).
  apply fmap_Ok_inv in H as (out & Hout & Hids).
  exists out. split; [done|]. split; [done|].
  intros Hties.
  destruct out as [|a [|b out]]; try discriminate.
  unfold scored_ids in Hids. cbn [map] in Hids.
  injection Hids as Ha Ka Hb Kb _.
  specialize (Hties 0%nat a b eq_refl eq_refl).
  rewrite Ka, Kb, Ha, Hb in Hties.
  specialize (Hties (Qeq_refl _)). lia.
Qed.

(** C6, amended. Every candidate list and every fused list is sorted in
    descending order of its score, and entries with equal scores keep the
    order they had before the sort: the order of the corpus rows for a
    back end's candidates, the order of first insertion into
    [unique_results] for the fused list. The recipe ids play no part. *)
Theorem results_sorted_descending_ties_stable :
  (∀ self ingredients top_n min_score cf df out,
     TFIDFRecommender.get_top_recommendations self ingredients top_n min_score cf df
       = Ok out →
     StronglySorted (desc similarity_score) out
     ∧ ∃ sims pre,
         TFIDFRecommender.compute_similarity_scores self ingredients = Ok sims
         ∧ TFIDFRecommender.recommendations self ingredients min_score cf df = Ok pre
         ∧ in_row_order (TFIDFRecommender._recipe_metadata self) sims pre
         ∧ ties_keep_order similarity_score pre out)
  ∧ (∀ self ingredients top_n min_score cf df out,
     EmbeddingRecommender.get_top_recommendations self ingredients top_n min_score cf df
       = Ok out →
     StronglySorted (desc similarity_score) out
     ∧ (out = []
        ∨ ∃ sims pre,
            fst <$> EmbeddingRecommender.compute_similarity_scores self ingredients
              = Ok sims
            ∧ EmbeddingRecommender.recommendations self ingredients min_score cf df
              = Ok pre
            ∧ in_row_order (EmbeddingRecommender._recipe_metadata self) sims pre
            ∧ ties_keep_order similarity_score pre out))
  ∧ (∀ self ingredients cf df max_results out,
     HybridRecommender.get_recommendations self ingredients cf df max_results
       = Ok out →
     StronglySorted (desc match_score) out
     ∧ ∃ unique_results,
         HybridRecommender.merge self []
           (HybridRecommender.all_results self ingredients cf df max_results)
           = Ok unique_results
         ∧ ties_keep_order match_score (map snd unique_results) out).
Proof.
  split; [|split].
  - intros self ingredients top_n min_score cf df out.
    unfold TFIDFRecommender.get_top_recommendations,
      TFIDFRecommender.recommendations.
    destruct (TFIDFRecommender.load_models self); simpl; [|done].
    destruct (TFIDFRecommender.compute_similarity_scores self ingredients)
      as [sims|]; simpl; [|done].
    destruct (collect _ _ _ _ _ sims) as [pre|] eqn:E; simpl; [|done].
    intros [= <-]. split; [apply sorted_slice|].
    exists sims, pre. repeat split; [by eapply collect_in_row_order|].
    apply sorted_slice.
  - intros self ingredients top_n min_score cf df out.
    unfold EmbeddingRecommender.get_top_recommendations,
      EmbeddingRecommender.recommendations.
    destruct (EmbeddingRecommender.load_models self); simpl; [|done].
    destruct (negb _).
    { intros [= <-]. split; [constructor|by left]. }
    destruct (EmbeddingRecommender.compute_similarity_scores self ingredients)
      as [[sims ?]|]; simpl; [|done].
    destruct (collect _ _ _ _ _ sims) as [pre|] eqn:E; simpl; [|done].
    intros [= <-]. split; [apply sorted_slice|]. right.
    exists sims, pre. repeat split; [by eapply collect_in_row_order|].
    apply sorted_slice.
  - intros self ingredients cf df max_results out.
    unfold HybridRecommender.get_recommendations.
    destruct (HybridRecommender.merge self [] _) as [ur|]; simpl; [|done].
    intros [= <-]. split; [apply sorted_slice|].
    exists ur. split; [done|apply sorted_slice].
Qed.

Lemma results_sorted_descending_ties_stable_witness :
  ∃ out,
    TFIDFRecommender.get_top_recommendations sample_tfidf
      ["chicken"] 10 0 None None = Ok out
    ∧ recipe_ids out = [VInt 7; VInt 3; VInt 5]
    ∧ StronglySorted (desc similarity_score) out.
Proof.
  assert (recipe_ids <$> TFIDFRecommender.get_top_recommendations sample_tfidf
            ["chicken"] 10 0 None None = Ok [VInt 7; VInt 3; VInt 5]) as H
    by (vm_compute; reflexivity).
  apply fmap_Ok_inv in H as (out & Hout & Hids).
  exists out. split; [exact Hout|]. split; [exact Hids|].
  exact (proj1 (proj1 results_sorted_descending_ties_stable _ _ _ _ _ _ _ Hout)).
Defined.

(** ** Filtering narrows *)

(** The rows kept with filters are among the rows kept without, in the
    same order. *)
Lemma collect_filtered_sublist metadata min_score cf df idx sims lf lu :
  collect metadata min_score cf df idx sims = Ok lf →
  collect metadata min_score None None idx sims = Ok lu →
  lf `sublist_of` lu.
Proof.
  revert idx lf lu; induction sims as [|score rest IH]; intros idx lf lu; simpl.
  { by intros [= <-] [= <-]. }
  destruct (negb (Qle_bool min_score score)); [apply IH|].
  destruct (metadata !! idx) as [recipe|]; [|done].
  simpl.
  destruct (collect metadata min_score None None (S idx) rest) as [tu|] eqn:Eu;
    simpl; [|by intros _ ?].
  intros Hf [= <-].
  destruct (cuisine_rejects cf recipe) as [[|]|]; simpl in Hf;
    [by apply sublist_cons, (IH (S idx))| |done].
  destruct (diet_rejects df recipe) as [[|]|]; simpl in Hf;
    [by apply sublist_cons, (IH (S idx))| |done].
  destruct (collect metadata min_score cf df (S idx) rest) as [tf|] eqn:Ef;
    simpl in Hf; [|done].
  injection Hf as <-. by apply sublist_skip, (IH (S idx)).
Qed.

Lemma collect_length metadata min_score cf df idx sims l :
  collect metadata min_score cf df idx sims = Ok l →
  (length l ≤ length metadata - idx)%nat.
Proof.
  revert idx l; induction sims as [|score rest IH]; intros idx l; simpl.
  { intros [= <-]. simpl. lia. }
  assert (∀ l', collect metadata min_score cf df (S idx) rest = Ok l' →
            (length l' ≤ length metadata - idx)%nat) as Hskip.
  { intros l' Hl'%IH. lia. }
  destruct (negb (Qle_bool min_score score)); [apply Hskip|].
  destruct (metadata !! idx) as [recipe|] eqn:Hm; [|done].
  apply lookup_lt_Some in Hm.
  destruct (cuisine_rejects cf recipe) as [[|]|]; simpl; [apply Hskip| |done].
  destruct (diet_rejects df recipe) as [[|]|]; simpl; [apply Hskip| |done].
  destruct (collect metadata min_score cf df (S idx) rest) as [tail|] eqn:E;
    simpl; [|done].
  intros [= <-]. specialize (IH _ _ E). simpl. lia.
Qed.

Lemma rank_filtered_sublist (lf lu : list dict) (metadata : list dict) (n n' : Z) :
  lf `sublist_of` lu →
  (length lu ≤ length metadata)%nat →
  Z.of_nat (length metadata) <= n' →
  rank lf n `sublist_of` rank lu n'.
Proof.
  intros Hs Hlen Hn'. unfold rank.
  rewrite (py_slice_to_all (sort_desc similarity_score lu) n')
    by (rewrite sort_desc_length; lia).
  etransitivity; [|by apply sort_desc_sublist].
  unfold py_slice_to. case_match; apply sublist_take.
Qed.

(** C9, as stated, fails: with [top_n = 1] the filter ["Indian"] returns
    recipe 5, which the unfiltered call with [top_n = 1] (recipe 7) does
    not return. *)
Lemma filtered_entry_not_in_truncated_list :
  ∃ filtered unfiltered,
    TFIDFRecommender.get_top_recommendations sample_tfidf
      ["chicken"] 1 0 (Some "Indian") None = Ok filtered
    ∧ TFIDFRecommender.get_top_recommendations sample_tfidf
      ["chicken"] 1 0 None None = Ok unfiltered
    ∧ recipe_ids filtered = [VInt 5]
    ∧ recipe_ids unfiltered = [VInt 7]
    ∧ ¬ filtered `sublist_of` unfiltered.
Proof.
  assert (recipe_ids <$> TFIDFRecommender.get_top_recommendations sample_tfidf
            ["chicken"] 1 0 (Some "Indian") None = Ok [VInt 5]) as Hf
    by (vm_compute; reflexivity).
  assert (recipe_ids <$> TFIDFRecommender.get_top_recommendations sample_tfidf
            ["chicken"] 1 0 None None = Ok [VInt 7]) as Hu
    by (vm_compute; reflexivity).
  apply fmap_Ok_inv in Hf as (filtered & Hf & Hfi).
  apply fmap_Ok_inv in Hu as (unfiltered & Hu & Hui).
  exists filtered, unfiltered. repeat (split; [done|]).
  intros H. apply (fmap_sublist (fun d => dict_get d "recipe_id" VNone)) in H.
  change (recipe_ids filtered `sublist_of` recipe_ids unfiltered) in H.
  rewrite Hfi, Hui in H.
  apply sublist_cons_l in H as (k1 & k2 & Hk & _).
  destruct k1 as [|? [|? ?]]; discriminate.
Qed.

(** C9, amended. For a fixed query, corpus and score threshold, the list a
    back end returns with a cuisine or diet filter (and any [top_n]) is a
    sub-sequence of the list it returns without filters when that list is
    not cut short, that is when its [top_n] is at least the number of
    recipes. *)
Theorem filtered_subsequence_of_full_ranking :
  (∀ self ingredients top_n top_n' min_score cf df filtered unfiltered,
     Z.of_nat (length (TFIDFRecommender._recipe_metadata self)) <= top_n' →
     TFIDFRecommender.get_top_recommendations self ingredients top_n min_score cf df
       = Ok filtered →
     TFIDFRecommender.get_top_recommendations self ingredients top_n' min_score
       None None = Ok unfiltered →
     filtered `sublist_of` unfiltered)
  ∧ (∀ self ingredients top_n top_n' min_score cf df filtered unfiltered,
     Z.of_nat (length (EmbeddingRecommender._recipe_metadata self)) <= top_n' →
     EmbeddingRecommender.get_top_recommendations self ingredients top_n min_score cf df
       = Ok filtered →
     EmbeddingRecommender.get_top_recommendations self ingredients top_n' min_score
       None None = Ok unfiltered →
     filtered `sublist_of` unfiltered).
Proof.
  split.
  - intros self ingredients top_n top_n' min_score cf df filtered unfiltered Hn.
    unfold TFIDFRecommender.get_top_recommendations,
      TFIDFRecommender.recommendations.
    destruct (TFIDFRecommender.load_models self); simpl; [|done].
    destruct (TFIDFRecommender.compute_similarity_scores self ingredients)
      as [sims|]; simpl; [|done].
    destruct (collect _ _ cf df _ sims) as [lf|] eqn:Ef; simpl; [|done].
    destruct (collect _ _ None None _ sims) as [lu|] eqn:Eu; simpl; [|done].
    intros [= <-] [= <-].
    eapply rank_filtered_sublist; [by eapply collect_filtered_sublist| |done].
    apply collect_length in Eu. lia.
  - intros self ingredients top_n top_n' min_score cf df filtered unfiltered Hn.
    unfold EmbeddingRecommender.get_top_recommendations,
      EmbeddingRecommender.recommendations.
    destruct (EmbeddingRecommender.load_models self); simpl; [|done].
    destruct (negb _); [by intros [= <-] [= <-]|].
    destruct (EmbeddingRecommender.compute_similarity_scores self ingredients)
      as [[sims ?]|]; simpl; [|done].
    destruct (collect _ _ cf df _ sims) as [lf|] eqn:Ef; simpl; [|done].
    destruct (collect _ _ None None _ sims) as [lu|] eqn:Eu; simpl; [|done].
    intros [= <-] [= <-].
    eapply rank_filtered_sublist; [by eapply collect_filtered_sublist| |done].
    apply collect_length in Eu. lia.
Qed.

Lemma filtered_subsequence_of_full_ranking_witness :
  ∃ filtered unfiltered,
    Z.of_nat (length (TFIDFRecommender._recipe_metadata sample_tfidf)) <= 3
    ∧ TFIDFRecommender.get_top_recommendations sample_tfidf
        ["chicken"] 1 0 (Some "Indian") None = Ok filtered
    ∧ TFIDFRecommender.get_top_recommendations sample_tfidf
        ["chicken"] 3 0 None None = Ok unfiltered
    ∧ recipe_ids filtered = [VInt 5]
    ∧ recipe_ids unfiltered = [VInt 7; VInt 3; VInt 5]
    ∧ filtered `sublist_of` unfiltered.
Proof.
  assert (Z.of_nat (length (TFIDFRecommender._recipe_metadata sample_tfidf)) <= 3)
    as Hn by (vm_compute; discriminate).
  assert (recipe_ids <$> TFIDFRecommender.get_top_recommendations sample_tfidf
            ["chicken"] 1 0 (Some "Indian") None = Ok [VInt 5]) as Hf
    by (vm_compute; reflexivity).
  assert (recipe_ids <$> TFIDFRecommender.get_top_recommendations sample_tfidf
            ["chicken"] 3 0 None None = Ok [VInt 7; VInt 3; VInt 5]) as Hu
    by (vm_compute; reflexivity).
  apply fmap_Ok_inv in Hf as (filtered & Hf & Hfi).
  apply fmap_Ok_inv in Hu as (unfiltered & Hu & Hui).
  exists filtered, unfiltered.
  exact (conj Hn (conj Hf (conj Hu (conj Hfi (conj Hui
    (proj1 filtered_subsequence_of_full_ranking _ _ _ _ _ _ _ _ _ Hn Hf Hu)))))).
Defined.

(** * Further properties of the code *)

(** ** Normalisation and fusion of score arrays *)

Lemma normalize_len (scores : ndarray) :
  np_len (HybridScorer.normalize_score_array scores) = np_len scores.
Proof.
  destruct scores as [[|s rest]|[|s rest]]; cbn [HybridScorer.normalize_score_array];
    try done.
  - destruct (_ =? _); simpl; by rewrite length_map.
  - destruct (F64.eqb _ _); simpl; by rewrite length_map.
Qed.

Lemma as_float64_length (a : ndarray) : length (as_float64 a) = np_len a.
Proof. destruct a; simpl; [apply length_map|done]. Qed.

Lemma np_take_len (n : nat) (a : ndarray) : np_len (np_take n a) = Nat.min n (np_len a).
Proof. destruct a; simpl; apply length_take. Qed.

(** Once the running minimum or maximum is NaN it stays NaN, and a NaN
    entry makes it NaN. *)
Lemma np_min_nan (s : F64.float) (rest : list F64.float) :
  Exists (fun x => F64.is_nan x = true) (s :: rest) → np_min s rest = F64.nan.
Proof.
  unfold np_min. revert s. induction rest as [|x rest IH]; intros s H.
  - apply Exists_cons in H as [H|H]; [by destruct s|by apply Exists_nil in H].
  - simpl. apply IH. apply Exists_cons in H as [H|H].
    + apply Exists_cons_hd. destruct s; try done.
    + apply Exists_cons in H as [H|H]; [|by apply Exists_cons_tl].
      apply Exists_cons_hd. destruct x; try done.
      unfold np_minimum. by destruct s as [[|]|[|]| |[|] ? ?].
Qed.

Lemma np_max_nan (s : F64.float) (rest : list F64.float) :
  Exists (fun x => F64.is_nan x = true) (s :: rest) → np_max s rest = F64.nan.
Proof.
  unfold np_max. revert s. induction rest as [|x rest IH]; intros s H.
  - apply Exists_cons in H as [H|H]; [by destruct s|by apply Exists_nil in H].
  - simpl. apply IH. apply Exists_cons in H as [H|H].
    + apply Exists_cons_hd. destruct s; try done.
      unfold np_maximum. cbn [F64.is_nan]. by rewrite orb_true_r.
    + apply Exists_cons in H as [H|H]; [|by apply Exists_cons_tl].
      apply Exists_cons_hd. destruct x; try done.
      unfold np_maximum. by destruct s as [[|]|[|]| |[|] ? ?].
Qed.




(** ** What a back end's result list holds *)

Lemma recommendation_fields (recipe : dict) (idx : nat) (score : Q) :
  similarity_score (recommendation recipe idx score) = score
  ∧ recommendation recipe idx score !! "cuisine"
    = Some (dict_get recipe "cuisine" (VStr "Unknown"))
  ∧ recommendation recipe idx score !! "diet_types"
    = Some (dict_get recipe "diet_types" (VStr ""))
  ∧ recommendation recipe idx score !! "recipe_id"
    = Some (dict_get recipe "id" (VInt (Z.of_nat idx))).
Proof. done. Qed.

Lemma Forall_prefix {A : Type} (P : A → Prop) (l k : list A) :
  l `prefix_of` k → Forall P k → Forall P l.
Proof. intros [k' ->] H. by apply Forall_app in H as [? _]. Qed.

Lemma rank_length (l : list dict) (n : Z) :
  0 <= n → Z.of_nat (length (rank l n)) <= n.
Proof.
  intros Hn. unfold rank, py_slice_to.
  destruct (0 <=? n) eqn:E; [|lia]. rewrite length_take. lia.
Qed.

Lemma collect_threshold metadata min_score cf df idx sims l :
  collect metadata min_score cf df idx sims = Ok l →
  Forall (fun d => (min_score <= similarity_score d)%Q) l.
Proof.
  revert idx l; induction sims as [|score rest IH]; intros idx l; simpl.
  - intros [= <-]. constructor.
  - destruct (Qle_bool min_score score) eqn:Es; simpl; [|apply IH].
    destruct (metadata !! idx) as [recipe|]; [|done].
    destruct (cuisine_rejects cf recipe) as [[|]|]; simpl; [apply IH| |done].
    destruct (diet_rejects df recipe) as [[|]|]; simpl; [apply IH| |done].
    destruct (collect metadata min_score cf df (S idx) rest) as [tail|] eqn:E;
      simpl; [|done].
    intros [= <-]. constructor; [|by eapply IH].
    rewrite (proj1 (recommendation_fields recipe idx score)).
    by apply Qle_bool_iff.
Qed.

(** X5. Each back end returns at most [top_n] entries (for a [top_n] that
    is not negative), and none of them has a score below [min_score]. *)
Theorem top_recommendations_bounded :
  (∀ self ingredients top_n min_score cf df out,
     0 <= top_n →
     TFIDFRecommender.get_top_recommendations self ingredients top_n min_score cf df
       = Ok out →
     Z.of_nat (length out) <= top_n
     ∧ Forall (fun d => (min_score <= similarity_score d)%Q) out)
  ∧ (∀ self ingredients top_n min_score cf df out,
     0 <= top_n →
     EmbeddingRecommender.get_top_recommendations self ingredients top_n min_score cf df
       = Ok out →
     Z.of_nat (length out) <= top_n
     ∧ Forall (fun d => (min_score <= similarity_score d)%Q) out).
Proof.
  split.
  - intros self ingredients top_n min_score cf df out Hn.
    unfold TFIDFRecommender.get_top_recommendations,
      TFIDFRecommender.recommendations.
    destruct (TFIDFRecommender.load_models self); simpl; [|done].
    destruct (TFIDFRecommender.compute_similarity_scores self ingredients)
      as [sims|]; simpl; [|done].
    destruct (collect _ _ _ _ _ sims) as [pre|] eqn:E; simpl; [|done].
    intros [= <-]. split; [by apply rank_length|].
    apply rank_Forall. by eapply collect_threshold.
  - intros self ingredients top_n min_score cf df out Hn.
    unfold EmbeddingRecommender.get_top_recommendations,
      EmbeddingRecommender.recommendations.
    destruct (EmbeddingRecommender.load_models self); simpl; [|done].
    destruct (negb _).
    { intros [= <-]. split; [simpl; lia|constructor]. }
    destruct (EmbeddingRecommender.compute_similarity_scores self ingredients)
      as [[sims ?]|]; simpl; [|done].
    destruct (collect _ _ _ _ _ sims) as [pre|] eqn:E; simpl; [|done].
    intros [= <-]. split; [by apply rank_length|].
    apply rank_Forall. by eapply collect_threshold.
Qed.

Lemma top_recommendations_bounded_witness :
  ∃ out,
    0 <= 2
    ∧ TFIDFRecommender.get_top_recommendations sample_tfidf
        ["chicken"] 2 (1 # 3) None None = Ok out
    ∧ recipe_ids out = [VInt 7; VInt 3]
    ∧ Z.of_nat (length out) <= 2
    ∧ Forall (fun d => (1 # 3 <= similarity_score d)%Q) out.
Proof.
  assert (0 <= 2) as Hn by lia.
  assert (recipe_ids <$> TFIDFRecommender.get_top_recommendations sample_tfidf
            ["chicken"] 2 (1 # 3) None None = Ok [VInt 7; VInt 3]) as H
    by (vm_compute; reflexivity).
  apply fmap_Ok_inv in H as (out & Hout & Hids).
  exists out.
  exact (conj Hn (conj Hout (conj Hids
    (proj1 top_recommendations_bounded _ _ _ _ _ _ _ Hn Hout)))).
Defined.

Lemma cuisine_kept (f : string) (recipe : dict) :
  PyStr.truthy f = true →
  cuisine_rejects (Some f) recipe = Ok false →
  ∃ c, recipe !! "cuisine" = Some (VStr c) ∧ PyStr.lower c = PyStr.lower f.
Proof.
  intros Hf. unfold cuisine_rejects, dict_get. simpl. rewrite Hf.
  destruct (recipe !! "cuisine") as [[| | |c]|] eqn:E; simpl; try done.
  - intros [= H]. exists c. split; [done|].
    apply negb_false_iff, String.eqb_eq in H. done.
  - intros [= H]. apply negb_false_iff in H.
    rewrite <- lower_truthy in Hf. by destruct (PyStr.lower f).
Qed.

Lemma diet_kept (f : string) (recipe : dict) :
  PyStr.truthy f = true →
  diet_rejects (Some f) recipe = Ok false →
  ∃ t, dict_get recipe "diet_types" (VStr "") = VStr t
       ∧ PyStr.contains (PyStr.lower f) (PyStr.lower t) = true.
Proof.
  intros Hf. unfold diet_rejects. simpl. rewrite Hf.
  destruct (dict_get recipe "diet_types" (VStr "")) as [| | |t]; simpl; try done.
  intros [= H]. exists t. split; [done|]. by apply negb_false_iff in H.
Qed.

Lemma collect_filtered metadata min_score cf df idx sims l :
  collect metadata min_score cf df idx sims = Ok l →
  (∀ f, cf = Some f → PyStr.truthy f = true →
     Forall (fun d => ∃ c, d !! "cuisine" = Some (VStr c)
                           ∧ PyStr.lower c = PyStr.lower f) l)
  ∧ (∀ f, df = Some f → PyStr.truthy f = true →
     Forall (fun d => ∃ t, d !! "diet_types" = Some (VStr t)
                           ∧ PyStr.contains (PyStr.lower f) (PyStr.lower t) = true) l).
Proof.
  revert idx l; induction sims as [|score rest IH]; intros idx l; simpl.
  - intros [= <-]. split; intros; constructor.
  - destruct (negb (Qle_bool min_score score)); [apply IH|].
    destruct (metadata !! idx) as [recipe|]; [|done].
    destruct (cuisine_rejects cf recipe) as [[|]|] eqn:Ec; simpl;
      [apply IH| |done].
    destruct (diet_rejects df recipe) as [[|]|] eqn:Ed; simpl;
      [apply IH| |done].
    destruct (collect metadata min_score cf df (S idx) rest) as [tail|] eqn:E;
      simpl; [|done].
    intros [= <-]. destruct (IH _ _ E) as [IHc IHd]. split.
    + intros f -> Hf. constructor; [|by apply IHc].
      destruct (cuisine_kept f recipe Hf Ec) as (c & Hc & Hl).
      exists c. split; [|done].
      rewrite (proj1 (proj2 (recommendation_fields recipe idx score))).
      unfold dict_get. by rewrite Hc.
    + intros f -> Hf. constructor; [|by apply IHd].
      destruct (diet_kept f recipe Hf Ed) as (t & Ht & Hl).
      exists t. split; [|done].
      rewrite (proj1 (proj2 (proj2 (recommendation_fields recipe idx score)))).
      by rewrite Ht.
Qed.

(** X6. What a filter guarantees about a back end's results: with a
    cuisine filter every returned recipe has a cuisine equal to the filter
    up to case, and with a diet filter the lower-cased filter occurs in
    the lower-cased diet text of every returned recipe. *)
Theorem filters_hold_on_results :
  (∀ self ingredients top_n min_score cf df out,
     TFIDFRecommender.get_top_recommendations self ingredients top_n min_score cf df
       = Ok out →
     (∀ f, cf = Some f → PyStr.truthy f = true →
        Forall (fun d => ∃ c, d !! "cuisine" = Some (VStr c)
                              ∧ PyStr.lower c = PyStr.lower f) out)
     ∧ (∀ f, df = Some f → PyStr.truthy f = true →
        Forall (fun d => ∃ t, d !! "diet_types" = Some (VStr t)
                              ∧ PyStr.contains (PyStr.lower f) (PyStr.lower t) = true)
               out))
  ∧ (∀ self ingredients top_n min_score cf df out,
     EmbeddingRecommender.get_top_recommendations self ingredients top_n min_score cf df
       = Ok out →
     (∀ f, cf = Some f → PyStr.truthy f = true →
        Forall (fun d => ∃ c, d !! "cuisine" = Some (VStr c)
                              ∧ PyStr.lower c = PyStr.lower f) out)
     ∧ (∀ f, df = Some f → PyStr.truthy f = true →
        Forall (fun d => ∃ t, d !! "diet_types" = Some (VStr t)
                              ∧ PyStr.contains (PyStr.lower f) (PyStr.lower t) = true)
               out)).
Proof.
  split.
  - intros self ingredients top_n min_score cf df out.
    unfold TFIDFRecommender.get_top_recommendations,
      TFIDFRecommender.recommendations.
    destruct (TFIDFRecommender.load_models self); simpl; [|done].
    destruct (TFIDFRecommender.compute_similarity_scores self ingredients)
      as [sims|]; simpl; [|done].
    destruct (collect _ _ _ _ _ sims) as [pre|] eqn:E; simpl; [|done].
    intros [= <-]. destruct (collect_filtered _ _ _ _ _ _ _ E) as [Hc Hd].
    split; intros f Hf Ht; apply rank_Forall; eauto.
  - intros self ingredients top_n min_score cf df out.
    unfold EmbeddingRecommender.get_top_recommendations,
      EmbeddingRecommender.recommendations.
    destruct (EmbeddingRecommender.load_models self); simpl; [|done].
    destruct (negb _).
    { intros [= <-]. split; intros; constructor. }
    destruct (EmbeddingRecommender.compute_similarity_scores self ingredients)
      as [[sims ?]|]; simpl; [|done].
    destruct (collect _ _ _ _ _ sims) as [pre|] eqn:E; simpl; [|done].
    intros [= <-]. destruct (collect_filtered _ _ _ _ _ _ _ E) as [Hc Hd].
    split; intros f Hf Ht; apply rank_Forall; eauto.
Qed.

Lemma filters_hold_on_results_witness :
  ∃ out,
    TFIDFRecommender.get_top_recommendations sample_tfidf
      ["chicken"] 10 0 (Some "ITALIAN") None = Ok out
    ∧ recipe_ids out = [VInt 7]
    ∧ PyStr.truthy "ITALIAN" = true
    ∧ Forall (fun d => ∃ c, d !! "cuisine" = Some (VStr c)
                            ∧ PyStr.lower c = PyStr.lower "ITALIAN") out.
Proof.
  assert (recipe_ids <$> TFIDFRecommender.get_top_recommendations sample_tfidf
            ["chicken"] 10 0 (Some "ITALIAN") None = Ok [VInt 7]) as H
    by (vm_compute; reflexivity).
  apply fmap_Ok_inv in H as (out & Hout & Hids).
  exists out.
  exact (conj Hout (conj Hids (conj eq_refl
    (proj1 (proj1 filters_hold_on_results _ _ _ _ _ _ _ Hout)
       "ITALIAN" eq_refl eq_refl)))).
Defined.

(** ** The query text *)

Lemma cleaned_ingredients_same (l l' : list string) :
  Forall2 (fun a b => PyStr.strip (PyStr.lower a) = PyStr.strip (PyStr.lower b)) l l' →
  cleaned_ingredients l = cleaned_ingredients l'.
Proof. induction 1 as [|a b l l' Hab _ IH]; simpl; [done|]. by rewrite Hab, IH. Qed.

Lemma tfidf_reads_tokens (self : TFIDFRecommender.t) (l l' : list string)
    top_n min_score cf df :
  cleaned_ingredients l = cleaned_ingredients l' →
  TFIDFRecommender.get_top_recommendations self l top_n min_score cf df
  = TFIDFRecommender.get_top_recommendations self l' top_n min_score cf df.
Proof.
  intros H. unfold TFIDFRecommender.get_top_recommendations,
    TFIDFRecommender.recommendations, TFIDFRecommender.compute_similarity_scores,
    TFIDFRecommender._preprocess_ingredients. by rewrite H.
Qed.

Lemma embedding_reads_tokens (self : EmbeddingRecommender.t) (l l' : list string)
    top_n min_score cf df :
  cleaned_ingredients l = cleaned_ingredients l' →
  EmbeddingRecommender.get_top_recommendations self l top_n min_score cf df
  = EmbeddingRecommender.get_top_recommendations self l' top_n min_score cf df.
Proof.
  intros H. unfold EmbeddingRecommender.get_top_recommendations,
    EmbeddingRecommender.recommendations,
    EmbeddingRecommender.compute_similarity_scores,
    EmbeddingRecommender._preprocess_ingredients. by rewrite H.
Qed.

(** X7. Letter case and surrounding white space of the ingredients do not
    matter: two ingredient lists whose entries agree after lower-casing and
    trimming get the same answer from each back end and from the hybrid
    call, whatever the indexes are. *)
Theorem query_case_and_padding_ignored (ingredients ingredients' : list string) :
  Forall2 (fun a b => PyStr.strip (PyStr.lower a) = PyStr.strip (PyStr.lower b))
          ingredients ingredients' →
  (∀ self top_n min_score cf df,
     TFIDFRecommender.get_top_recommendations self ingredients top_n min_score cf df
     = TFIDFRecommender.get_top_recommendations self ingredients' top_n min_score cf df)
  ∧ (∀ self top_n min_score cf df,
     EmbeddingRecommender.get_top_recommendations self ingredients top_n min_score cf df
     = EmbeddingRecommender.get_top_recommendations self ingredients' top_n min_score cf df)
  ∧ (∀ self cf df max_results,
     HybridRecommender.get_recommendations self ingredients cf df max_results
     = HybridRecommender.get_recommendations self ingredients' cf df max_results).
Proof.
  intros H%cleaned_ingredients_same. split; [|split].
  - intros. by apply tfidf_reads_tokens.
  - intros. by apply embedding_reads_tokens.
  - intros self cf df n.
    unfold HybridRecommender.get_recommendations, HybridRecommender.all_results,
      HybridRecommender.tfidf_results, HybridRecommender.embedding_results.
    destruct (HybridRecommender.tfidf_recommender self) as [t|],
      (HybridRecommender.embedding_recommender self) as [e|];
      try rewrite (tfidf_reads_tokens t _ _ _ _ _ _ H);
      try rewrite (embedding_reads_tokens e _ _ _ _ _ _ H); done.
Qed.

Lemma query_case_and_padding_ignored_witness :
  Forall2 (fun a b => PyStr.strip (PyStr.lower a) = PyStr.strip (PyStr.lower b))
          ["  Chicken "; "GARLIC"] ["chicken"; "garlic"]
  ∧ TFIDFRecommender.get_top_recommendations sample_tfidf
      ["  Chicken "; "GARLIC"] 10 0 None None
    = TFIDFRecommender.get_top_recommendations sample_tfidf
      ["chicken"; "garlic"] 10 0 None None.
Proof.
  assert (Forall2 (fun a b => PyStr.strip (PyStr.lower a) = PyStr.strip (PyStr.lower b))
            ["  Chicken "; "GARLIC"] ["chicken"; "garlic"]) as H
    by (repeat constructor).
  exact (conj H (proj1 (query_case_and_padding_ignored _ _ H)
                   sample_tfidf 10 0%Q None None)).
Defined.

(** ** The dense score array *)

Lemma np_set_spec (full : list Q) (idx : Z) (sim : Q) (full' : list Q) :
  np_set full idx sim = Ok full' →
  length full' = length full
  ∧ ∀ i : nat, idx ≠ Z.of_nat i → idx ≠ Z.of_nat i - Z.of_nat (length full) →
      full' !! i = full !! i.
Proof.
  unfold np_set.
  destruct (0 <=? idx) eqn:E0.
  - destruct ((0 <=? idx) && (idx <? Z.of_nat (length full))) eqn:E; [|done].
    intros [= <-]. split; [apply length_insert|].
    intros i Hi _. apply list_lookup_insert_ne. lia.
  - destruct ((0 <=? Z.of_nat (length full) + idx)
              && (Z.of_nat (length full) + idx <? Z.of_nat (length full))) eqn:E;
      [|done].
    intros [= <-]. split; [apply length_insert|].
    intros i _ Hi. apply list_lookup_insert_ne.
    apply andb_prop in E as [E1 E2]. lia.
Qed.

Lemma scatter_spec (hits : list (Q * Z)) (full full' : list Q) :
  EmbeddingRecommender.scatter hits full = Ok full' →
  length full' = length full
  ∧ ∀ i : nat,
      Forall (fun hit => hit.2 ≠ Z.of_nat i
                         ∧ hit.2 ≠ Z.of_nat i - Z.of_nat (length full)) hits →
      full' !! i = full !! i.
Proof.
  revert full; induction hits as [|[sim idx] rest IH]; intros full; simpl.
  - intros [= <-]. done.
  - destruct (np_set full idx sim) as [full1|] eqn:E; simpl; [|done].
    intros H. apply np_set_spec in E as [Hlen Hkeep].
    apply IH in H as [Hlen' Hkeep']. split; [congruence|].
    intros i Hi. apply Forall_cons in Hi as [[Hi1 Hi2] Hi]. simpl in *.
    rewrite Hkeep', Hkeep; [done..|].
    rewrite Hlen. done.
Qed.

(** X8. The score array of the dense back end has one entry per recipe of
    the corpus, its row numbers are 0, 1, ..., and a row that the index did
    not return has the score 0. *)
Theorem dense_scores_cover_corpus (self : EmbeddingRecommender.t)
    (ingredients : list string) (similarities : list Q) (rows : list nat) :
  EmbeddingRecommender.compute_similarity_scores self ingredients
    = Ok (similarities, rows) →
  let num_recipes := length (EmbeddingRecommender._recipe_metadata self) in
  length similarities = num_recipes
  ∧ rows = seq 0 num_recipes
  ∧ ∀ hits (i : nat),
      EmbeddingRecommender.faiss_search self
        (EmbeddingRecommender._preprocess_ingredients ingredients) num_recipes
        = Ok hits →
      (i < num_recipes)%nat →
      Forall (fun hit => hit.2 ≠ Z.of_nat i
                         ∧ hit.2 ≠ Z.of_nat i - Z.of_nat num_recipes) hits →
      similarities !! i = Some 0%Q.
Proof.
  unfold EmbeddingRecommender.compute_similarity_scores.
  destruct (EmbeddingRecommender.load_models self); simpl; [|done].
  set (N := length (EmbeddingRecommender._recipe_metadata self)).
  destruct (negb _).
  - intros [= <- <-]. repeat split; [apply length_replicate|].
    intros hits i _ Hi _. by apply lookup_replicate_2.
  - destruct (EmbeddingRecommender.faiss_search self _ N) as [hits|]; simpl; [|done].
    destruct (EmbeddingRecommender.scatter hits (replicate N 0%Q)) as [full|] eqn:E;
      simpl; [|done].
    intros [= <- <-]. apply scatter_spec in E as [Hlen Hkeep].
    rewrite length_replicate in Hlen, Hkeep.
    repeat split; [done|].
    intros hits' i [= <-] Hi Hhits.
    rewrite Hkeep by done. by apply lookup_replicate_2.
Qed.

Lemma dense_scores_cover_corpus_witness :
  ∃ similarities rows,
    EmbeddingRecommender.compute_similarity_scores
      {| EmbeddingRecommender.load_models := Ok ();
         EmbeddingRecommender._recipe_metadata := sample_metadata;
         EmbeddingRecommender.faiss_search := fun _ _ => Ok [(3 # 4, 1); (1 # 2, -1)];
         EmbeddingRecommender.numpy := exact_float32_ops |}
      ["chicken"] = Ok (similarities, rows)
    ∧ similarities = [0; 3 # 4; 1 # 2]%Q
    ∧ length similarities = 3%nat
    ∧ rows = [0; 1; 2]%nat.
Proof.
  eexists _, _. split; [reflexivity|]. split; [reflexivity|].
  pose proof (dense_scores_cover_corpus
    {| EmbeddingRecommender.load_models := Ok ();
       EmbeddingRecommender._recipe_metadata := sample_metadata;
       EmbeddingRecommender.faiss_search := fun _ _ => Ok [(3 # 4, 1); (1 # 2, -1)];
       EmbeddingRecommender.numpy := exact_float32_ops |}
    ["chicken"] _ _ eq_refl) as (H1 & H2 & _).
  exact (conj H1 H2).
Defined.

(** ** What the hybrid call returns *)

Lemma tagged_recommendation (score_key source : string) (d : dict) :
  score_key = "tfidf_score" ∨ score_key = "embedding_score" →
  is_recommendation d →
  let r := HybridRecommender.tagged score_key source d in
  dict_get r "id" VNone = VNone
  ∧ numeric_scores r
  ∧ dict_get r "recipe_id" VNone = dict_get d "recipe_id" VNone.
Proof.
  intros Hk (recipe & idx & score & ->).
  unfold numeric_scores.
  destruct Hk as [-> | ->]; repeat split; by eexists.
Qed.

Lemma all_results_tagged self ingredients cf df n :
  Forall (fun r => dict_get r "id" VNone = VNone ∧ numeric_scores r)
         (HybridRecommender.all_results self ingredients cf df n)
  ∧ map (fun r => dict_get r "recipe_id" VNone)
        (HybridRecommender.all_results self ingredients cf df n)
    = recipe_ids (HybridRecommender.tfidf_results self ingredients cf df n
                  ++ HybridRecommender.embedding_results self ingredients cf df n).
Proof.
  assert (Forall is_recommendation
            (HybridRecommender.tfidf_results self ingredients cf df n)) as Ht.
  { unfold HybridRecommender.tfidf_results.
    destruct (HybridRecommender.tfidf_recommender self) as [r|]; [|constructor].
    destruct (TFIDFRecommender.get_top_recommendations _ _ _ _ _ _) eqn:E;
      simpl; [|constructor].
    by eapply tfidf_returns_recommendations. }
  assert (Forall is_recommendation
            (HybridRecommender.embedding_results self ingredients cf df n)) as He.
  { unfold HybridRecommender.embedding_results.
    destruct (HybridRecommender.embedding_recommender self) as [r|]; [|constructor].
    destruct (EmbeddingRecommender.get_top_recommendations _ _ _ _ _ _) eqn:E;
      simpl; [|constructor].
    by eapply embedding_returns_recommendations. }
  unfold HybridRecommender.all_results, recipe_ids. split.
  - apply Forall_app; split; apply Forall_fmap;
      (eapply Forall_impl; [eassumption|]); intros d Hd;
      [destruct (tagged_recommendation "tfidf_score" "tfidf" d) as (? & ? & _)
      |destruct (tagged_recommendation "embedding_score" "embedding" d) as (? & ? & _)];
      auto.
  - rewrite !map_app, !map_map. f_equal; apply map_ext_Forall;
      (eapply Forall_impl; [eassumption|]); intros d Hd;
      [destruct (tagged_recommendation "tfidf_score" "tfidf" d) as (_ & _ & ?)
      |destruct (tagged_recommendation "embedding_score" "embedding" d) as (_ & _ & ?)];
      auto.
Qed.

Lemma dict_get_insert_eq (d : dict) (k : string) (v dflt : value) :
  dict_get (<[k := v]> d) k dflt = v.
Proof. unfold dict_get. by rewrite lookup_insert_eq. Qed.

Lemma dict_get_insert_ne (d : dict) (k k' : string) (v dflt : value) :
  k ≠ k' → dict_get (<[k := v]> d) k' dflt = dict_get d k' dflt.
Proof. intros H. unfold dict_get. by rewrite lookup_insert_ne. Qed.

Lemma merge_step_existing self (e r : dict) :
  dict_get r "id" VNone = VNone → numeric_scores r → numeric_scores e →
  ∃ e', HybridRecommender.merge_step self [(VNone, e)] r = Ok [(VNone, e')]
        ∧ numeric_scores e'
        ∧ dict_get e' "recipe_id" VNone = dict_get e "recipe_id" VNone.
Proof.
  intros Hid [[qt Hrt] [qe Hre]] [[pt Het] [pe Hee]].
  unfold HybridRecommender.merge_step. rewrite Hid. cbn [od_get key_eqb].
  destruct (key_eqb (dict_get r "source" VNone) (VStr "tfidf")).
  - rewrite dict_get_insert_eq, dict_get_insert_ne by done.
    rewrite Hrt, Hee. cbn. eexists. split; [done|].
    unfold numeric_scores.
    rewrite !(dict_get_insert_ne _ "match_score") by done.
    rewrite dict_get_insert_eq, !dict_get_insert_ne by done.
    repeat split; by eexists.
  - rewrite dict_get_insert_eq, dict_get_insert_ne by done.
    rewrite Het, Hre. cbn. eexists. split; [done|].
    unfold numeric_scores.
    rewrite !(dict_get_insert_ne _ "match_score") by done.
    rewrite dict_get_insert_eq, !dict_get_insert_ne by done.
    repeat split; by eexists.
Qed.

Lemma merge_into_one self (e : dict) (results : list dict) :
  Forall (fun r => dict_get r "id" VNone = VNone ∧ numeric_scores r) results →
  numeric_scores e →
  ∃ e', HybridRecommender.merge self [(VNone, e)] results = Ok [(VNone, e')]
        ∧ dict_get e' "recipe_id" VNone = dict_get e "recipe_id" VNone.
Proof.
  intros Hr; revert e; induction Hr as [|r results [Hid Hnum] _ IH]; intros e He.
  - by exists e.
  - destruct (merge_step_existing self e r Hid Hnum He) as (e1 & Hstep & He1 & Hrid).
    destruct (IH e1 He1) as (e' & Hm & Hrid').
    exists e'. simpl. rewrite Hstep. simpl. split; [done|congruence].
Qed.

Lemma merge_all self (results : list dict) :
  Forall (fun r => dict_get r "id" VNone = VNone ∧ numeric_scores r) results →
  ∃ unique_results,
    HybridRecommender.merge self [] results = Ok unique_results
    ∧ map (fun d => dict_get d "recipe_id" VNone) (map snd unique_results)
      = take 1 (map (fun r => dict_get r "recipe_id" VNone) results).
Proof.
  destruct 1 as [|r results [Hid Hnum] Hr].
  - by exists [].
  - destruct (merge_into_one self r results Hr Hnum) as (e' & Hm & Hrid).
    exists [(VNone, e')]. split.
    + simpl. unfold HybridRecommender.merge_step. rewrite Hid. simpl. exact Hm.
    + simpl. by rewrite Hrid.
Qed.

(** X9. The hybrid call never raises, whatever the two back ends do; and a
    recommender that is not available returns the empty list. *)
Theorem hybrid_never_raises (self : HybridRecommender.t) (ingredients : list string)
    (cf df : option string) (max_results : Z) :
  (∃ out, HybridRecommender.get_recommendations self ingredients cf df max_results
          = Ok out)
  ∧ (HybridRecommender.is_available self = false →
     HybridRecommender.get_recommendations self ingredients cf df max_results
     = Ok []).
Proof.
  split.
  - destruct (merge_all self _
                (proj1 (all_results_tagged self ingredients cf df max_results)))
      as (ur & Hm & _).
    unfold HybridRecommender.get_recommendations. rewrite Hm. simpl. by eexists.
  - unfold HybridRecommender.is_available.
    intros H. apply orb_false_iff in H as [Ht He].
    unfold HybridRecommender.get_recommendations, HybridRecommender.all_results,
      HybridRecommender.tfidf_results, HybridRecommender.embedding_results.
    destruct (HybridRecommender.tfidf_recommender self); [done|].
    destruct (HybridRecommender.embedding_recommender self); [done|].
    simpl. by rewrite py_slice_to_nil.
Qed.

Lemma hybrid_never_raises_witness :
  let self := HybridRecommender.__init__ Config.settings None None in
  HybridRecommender.is_available self = false
  ∧ HybridRecommender.get_recommendations self ["chicken"] None None 10 = Ok [].
Proof.
  exact (conj eq_refl
    (proj2 (hybrid_never_raises (HybridRecommender.__init__ Config.settings None None)
              ["chicken"] None None 10) eq_refl)).
Defined.

(** X10. The fused list never has more than one entry. For [max_results]
    of at least 1 it is the first candidate alone - the first result of
    the lexical back end, or of the dense one when the lexical back end
    returned nothing - and it is empty only when neither back end returned
    anything. *)
Theorem fused_is_first_candidate (self : HybridRecommender.t)
    (ingredients : list string) (cf df : option string) (max_results : Z)
    (out : list dict) :
  HybridRecommender.get_recommendations self ingredients cf df max_results = Ok out →
  (length out ≤ 1)%nat
  ∧ (1 <= max_results →
     recipe_ids out
     = take 1 (recipe_ids
                 (HybridRecommender.tfidf_results self ingredients cf df max_results
                  ++ HybridRecommender.embedding_results self ingredients cf df
                       max_results))).
Proof.
  destruct (all_results_tagged self ingredients cf df max_results) as [Hall Hids].
  destruct (merge_all self _ Hall) as (ur & Hm & Hur).
  unfold HybridRecommender.get_recommendations. rewrite Hm. simpl.
  intros [= <-].
  assert (length (map snd ur) ≤ 1)%nat as Hlen.
  { apply (f_equal length) in Hur. rewrite length_map in Hur.
    rewrite Hur, length_take. lia. }
  split.
  - etransitivity; [apply prefix_length, py_slice_to_prefix|].
    by rewrite sort_desc_length.
  - intros Hn. rewrite <- Hids, <- Hur. unfold recipe_ids. f_equal.
    destruct (map snd ur) as [|d [|? ?]]; simpl in *; [| |lia].
    + apply py_slice_to_nil.
    + apply py_slice_to_all. simpl. lia.
Qed.

Lemma fused_is_first_candidate_witness :
  let self := HybridRecommender.__init__ Config.settings
                (Some failing_tfidf) (Some sample_embedding) in
  ∃ out,
    1 <= 5
    ∧ HybridRecommender.get_recommendations self ["chicken"] None None 5 = Ok out
    ∧ recipe_ids out = [VInt 3]
    ∧ recipe_ids out
      = take 1 (recipe_ids
                  (HybridRecommender.tfidf_results self ["chicken"] None None 5
                   ++ HybridRecommender.embedding_results self ["chicken"] None None 5)).
Proof.
  intros self.
  assert (1 <= 5) as Hn by lia.
  assert (recipe_ids <$> HybridRecommender.get_recommendations self
            ["chicken"] None None 5 = Ok [VInt 3]) as H
    by (vm_compute; reflexivity).
  apply fmap_Ok_inv in H as (out & Hout & Hids).
  exists out.
  exact (conj Hn (conj Hout (conj Hids
    (proj2 (fused_is_first_candidate _ _ _ _ _ _ Hout) Hn)))).
Defined.

(** ** Filtering row numbers *)

(** X11. [filter_recipes] returns some of the row numbers it was given, in
    the order given; each of them addresses a row of the metadata; and
    filtering its own result again with the same filters changes nothing. *)
Theorem filter_recipes_narrows (self : RecipeFilter.t) (recipe_indices out : list Z)
    (cf df : option string) :
  RecipeFilter.filter_recipes self recipe_indices cf df = Ok out →
  out `sublist_of` recipe_indices
  ∧ Forall (fun idx => - Z.of_nat (length (RecipeFilter.recipes_metadata self)) <= idx
                       < Z.of_nat (length (RecipeFilter.recipes_metadata self))) out
  ∧ RecipeFilter.filter_recipes self out cf df = Ok out.
Proof.
  revert out; induction recipe_indices as [|idx rest IH]; intros out; simpl.
  { intros [= <-]. repeat split; constructor. }
  set (n := Z.of_nat (length (RecipeFilter.recipes_metadata self))).
  assert (∀ out', RecipeFilter.filter_recipes self rest cf df = Ok out' →
            out' `sublist_of` idx :: rest
            ∧ Forall (fun i => - n <= i < n) out'
            ∧ RecipeFilter.filter_recipes self out' cf df = Ok out') as Hskip.
  { intros out' (Hs & Hr & Hi)%IH. repeat split; [by apply sublist_cons|done..]. }
  destruct (n <=? idx) eqn:En; [apply Hskip|].
  destruct (py_index (RecipeFilter.recipes_metadata self) idx) as [recipe|] eqn:Ei;
    simpl; [|done].
  destruct (RecipeFilter.cuisine_keeps cf recipe) as [[|]|] eqn:Ec; simpl;
    [|apply Hskip|done].
  destruct (RecipeFilter.diet_keeps df recipe) as [[|]|] eqn:Ed; simpl;
    [|apply Hskip|done].
  destruct (RecipeFilter.filter_recipes self rest cf df) as [tail|] eqn:Et;
    simpl; [|done].
  intros [= <-]. destruct (IH tail eq_refl) as (Hs & Hr & Hi).
  repeat split.
  - by apply sublist_skip.
  - constructor; [|done]. split; [|lia].
    unfold py_index in Ei. fold n in Ei.
    destruct (0 <=? idx) eqn:E0; [lia|].
    destruct (0 <=? n + idx) eqn:E1; [lia|done].
  - simpl. fold n. rewrite En, Ei. simpl. rewrite Ec. simpl. rewrite Ed. simpl.
    by rewrite Hi.
Qed.

Lemma filter_recipes_narrows_witness :
  let self := {| RecipeFilter.recipes_metadata := sample_metadata |} in
  RecipeFilter.filter_recipes self [2; 7; 0; -2; 1] (Some "indian") None = Ok [2]
  ∧ [2] `sublist_of` [2; 7; 0; -2; 1]
  ∧ RecipeFilter.filter_recipes self [2] (Some "indian") None = Ok [2].
Proof.
  assert (RecipeFilter.filter_recipes
            {| RecipeFilter.recipes_metadata := sample_metadata |}
            [2; 7; 0; -2; 1] (Some "indian") None = Ok [2]) as H
    by (vm_compute; reflexivity).
  destruct (filter_recipes_narrows _ _ _ _ _ H) as (Hs & _ & Hi).
  exact (conj H (conj Hs Hi)).
Defined.

(** ** Ranking recipes by combined score *)

Lemma zip_take_min {A B : Type} (l : list A) (k : list B) :
  zip (take (Nat.min (length l) (length k)) l)
      (take (Nat.min (length l) (length k)) k) = zip l k.
Proof.
  revert k; induction l as [|a l IH]; intros [|b k]; simpl; try done.
  by rewrite IH.
Qed.

Lemma rank_recipes_pairs (recipes : list dict) (combined_scores : list Q) :
  zip (if (length recipes =? length combined_scores)%nat then recipes
       else take (Nat.min (length recipes) (length combined_scores)) recipes)
      (if (length recipes =? length combined_scores)%nat then combined_scores
       else take (Nat.min (length recipes) (length combined_scores)) combined_scores)
  = zip recipes combined_scores.
Proof. destruct (_ =? _)%nat; [done|apply zip_take_min]. Qed.



(** ** Match percentage *)

Lemma split_comma_nonempty (s : string) : PyStr.split_comma s ≠ [].
Proof.
  destruct s as [|c r]; simpl; [done|].
  destruct (Ascii.eqb c ","); [done|]. by destruct (PyStr.split_comma r).
Qed.

Lemma Q_ratio_le_1 (a b : nat) :
  (a ≤ b)%nat → (0 < b)%nat →
  (0 <= inject_Z (Z.of_nat a) / inject_Z (Z.of_nat b) <= 1)%Q.
Proof.
  intros Hab Hb.
  assert (0 < inject_Z (Z.of_nat b))%Q as Hpos.
  { change 0%Q with (inject_Z 0). rewrite <- Zlt_Qlt. lia. }
  split.
  - apply Qle_shift_div_l; [done|]. rewrite Qmult_0_l.
    change 0%Q with (inject_Z 0). rewrite <- Zle_Qle. lia.
  - apply Qle_shift_div_r; [done|]. rewrite Qmult_1_l.
    rewrite <- Zle_Qle. lia.
Qed.

Lemma Q_ratio_eq_1 (a b : nat) :
  (0 < b)%nat →
  (inject_Z (Z.of_nat a) / inject_Z (Z.of_nat b) == 1)%Q ↔ a = b.
Proof.
  intros Hb.
  assert (¬ inject_Z (Z.of_nat b) == 0)%Q as Hne.
  { change 0%Q with (inject_Z 0). rewrite inject_Z_injective. lia. }
  split.
  - intros H.
    assert (inject_Z (Z.of_nat a) == inject_Z (Z.of_nat b))%Q as H'.
    { rewrite <- (Qmult_div_r (inject_Z (Z.of_nat a)) (inject_Z (Z.of_nat b))) by done.
      rewrite H. ring. }
    apply Nat2Z.inj. by apply inject_Z_injective.
  - intros ->. by field.
Qed.

Lemma match_percentage_unit (user_ingredients : list string)
    (recipe_ingredients : string) :
  (0 <= RecipeFilter.calculate_match_percentage user_ingredients recipe_ingredients
   <= 1)%Q.
Proof.
  unfold RecipeFilter.calculate_match_percentage.
  destruct (negb _); [lra|]. destruct (bool_decide _) eqn:E; [lra|].
  apply bool_decide_eq_false in E.
  set (U := list_to_set _ : gset string). set (R := list_to_set _ : gset string) in *.
  assert (0 < size R)%nat as Hpos.
  { assert (size R ≠ 0)%nat; [|lia]. apply size_non_empty_iff.
    by intros ?%leibniz_equiv. }
  assert (size (U ∩ R) ≤ size R)%nat as Hle
    by (apply subseteq_size, intersection_subseteq_r).
  destruct (Q_ratio_le_1 _ _ Hle Hpos) as [H0 H1].
  rewrite Q.min_l by done. done.
Qed.

(** X13. The match percentage lies in [0, 1]; it is 0 for a recipe
    without ingredient text; and for a recipe with ingredient text it is 1
    exactly when every ingredient of the recipe (lower-cased and trimmed)
    is among the user's, and 0 exactly when none is. *)
Theorem match_percentage_range (user_ingredients : list string)
    (recipe_ingredients : string) :
  let clean := fun i => PyStr.strip (PyStr.lower i) in
  let user := map clean user_ingredients in
  let recipe := map clean (PyStr.split_comma recipe_ingredients) in
  let p := RecipeFilter.calculate_match_percentage user_ingredients recipe_ingredients in
  (0 <= p <= 1)%Q
  ∧ (recipe_ingredients = "" → p = 0%Q)
  ∧ (recipe_ingredients ≠ "" →
     ((p == 1)%Q ↔ ∀ i, i ∈ recipe → i ∈ user)
     ∧ ((p == 0)%Q ↔ ∀ i, i ∈ recipe → i ∉ user)).
Proof.
  intros clean user recipe p. unfold p, RecipeFilter.calculate_match_percentage.
  fold clean. fold user. fold recipe.
  destruct (PyStr.truthy recipe_ingredients) eqn:Et; cbn [negb]; cycle 1.
  { assert (recipe_ingredients = "") by (by destruct recipe_ingredients).
    repeat split; try done; lra. }
  set (U := list_to_set user : gset string).
  set (R := list_to_set recipe : gset string).
  assert (R ≠ ∅) as HR.
  { unfold R, recipe. pose proof (split_comma_nonempty recipe_ingredients) as Hne.
    destruct (PyStr.split_comma recipe_ingredients) as [|x l]; [done|].
    simpl. set_solver. }
  rewrite bool_decide_eq_false_2 by done.
  assert (0 < size R)%nat as Hpos.
  { assert (size R ≠ 0)%nat; [|lia]. apply size_non_empty_iff. by intros ?%leibniz_equiv. }
  assert (size (U ∩ R) ≤ size R)%nat as Hle
    by (apply subseteq_size, intersection_subseteq_r).
  destruct (Q_ratio_le_1 _ _ Hle Hpos) as [H0 H1].
  set (ratio := (inject_Z (Z.of_nat (size (U ∩ R))) / inject_Z (Z.of_nat (size R)))%Q) in *.
  assert (Qmin ratio 1 == ratio)%Q as Hmin by (by apply Q.min_l).
  split; [rewrite Hmin; done|].
  split; [intros ->; discriminate|]. intros _.
  rewrite Hmin. split.
  - unfold ratio. rewrite Q_ratio_eq_1 by done. split.
    + intros Heq i Hi.
      assert (U ∩ R ≡ R) as Heqv
        by (apply set_subseteq_size_equiv; [apply intersection_subseteq_r|lia]).
      assert (i ∈ R) as HiR by (unfold R; by apply elem_of_list_to_set).
      apply Heqv in HiR. apply elem_of_intersection in HiR as [HiU _].
      unfold U in HiU. by apply elem_of_list_to_set in HiU.
    + intros Hall. f_equal.
      assert (U ∩ R = R) as ->; [|done].
      apply set_eq. intros i. rewrite elem_of_intersection. split; [tauto|].
      intros HiR. split; [|done].
      unfold U, R in *. apply elem_of_list_to_set.
      apply Hall. by apply elem_of_list_to_set in HiR.
  - split.
    + intros Hz i Hi HiU.
      assert (size (U ∩ R) = 0)%nat as Hs.
      { unfold ratio in Hz.
        assert (inject_Z (Z.of_nat (size (U ∩ R))) == 0)%Q as Hn.
        { assert (¬ inject_Z (Z.of_nat (size R)) == 0)%Q as Hne.
          { change 0%Q with (inject_Z 0). rewrite inject_Z_injective. lia. }
          rewrite <- (Qmult_div_r (inject_Z (Z.of_nat (size (U ∩ R))))
                        (inject_Z (Z.of_nat (size R)))) by done.
          rewrite Hz. ring. }
        change 0%Q with (inject_Z 0) in Hn.
        apply Nat2Z.inj. by apply inject_Z_injective. }
      apply size_empty_iff in Hs.
      assert (i ∈ U ∩ R) as Hin.
      { apply elem_of_intersection. unfold U, R.
        split; by apply elem_of_list_to_set. }
      apply Hs in Hin. set_solver.
    + intros Hnone.
      assert (U ∩ R = ∅) as Hem.
      { apply set_eq. intros i. rewrite elem_of_intersection. split; [|set_solver].
        intros [HiU HiR]. unfold U, R in *.
        apply elem_of_list_to_set in HiU, HiR. by destruct (Hnone i). }
      unfold ratio. rewrite Hem, size_empty. simpl. reflexivity.
Qed.

Lemma match_percentage_range_witness :
  "spaghetti,egg,bacon" ≠ ""
  ∧ (RecipeFilter.calculate_match_percentage
       ["Egg"; " bacon "; "spaghetti"; "salt"] "spaghetti,egg,bacon" == 1)%Q.
Proof.
  assert ("spaghetti,egg,bacon" ≠ "") as Hne by discriminate.
  split; [exact Hne|].
  apply (proj1 (proj2 (proj2 (match_percentage_range
           ["Egg"; " bacon "; "spaghetti"; "salt"] "spaghetti,egg,bacon")) Hne)).
  intros i Hi. vm_compute in Hi.
  repeat (apply elem_of_cons in Hi as [->|Hi]; [vm_compute; set_solver|]).
  by apply elem_of_nil in Hi.
Defined.

(** ** Pagination *)

Lemma py_slice_window {A : Type} (l : list A) (a n : Z) :
  0 <= a → 0 <= n →
  RecipeFilter.py_slice l a (a + n) = take (Z.to_nat n) (drop (Z.to_nat a) l).
Proof.
  intros Ha Hn. unfold RecipeFilter.py_slice.
  destruct (a <? 0) eqn:Ea; [lia|]. destruct (a + n <? 0) eqn:Eb; [lia|].
  destruct (Z_le_gt_dec a (Z.of_nat (length l))) as [Hin|Hout].
  - rewrite (Z.min_l a) by done.
    destruct (Z_le_gt_dec (a + n) (Z.of_nat (length l))) as [Hb|Hb].
    + rewrite Z.min_l by done. f_equal. lia.
    + rewrite Z.min_r by lia.
      rewrite !take_ge; [done|rewrite length_drop; lia..].
  - rewrite (Z.min_r a) by lia. rewrite Nat2Z.id.
    rewrite !drop_ge by lia. by rewrite !take_nil.
Qed.

(** X14. With a page size of at least 1, [paginate_results] succeeds; the
    number of pages is the number of results divided by the page size,
    rounded up; the page it reports is at least 1 and, when there is a
    page, not beyond the last one; and it returns that page's window of
    the results, never more than [page_size] of them. *)
Theorem paginate_results_page {A : Type} (results : list A) (page page_size : Z) :
  1 <= page_size →
  ∃ items info,
    RecipeFilter.paginate_results results page page_size = Some (items, info)
    ∧ (RecipeFilter.total_pages info - 1) * page_size < Z.of_nat (length results)
      <= RecipeFilter.total_pages info * page_size
    ∧ 1 <= RecipeFilter.current_page info
    ∧ (0 < RecipeFilter.total_pages info →
       RecipeFilter.current_page info <= RecipeFilter.total_pages info)
    ∧ (1 <= page <= RecipeFilter.total_pages info →
       RecipeFilter.current_page info = page)
    ∧ items = take (Z.to_nat page_size)
                (drop (Z.to_nat ((RecipeFilter.current_page info - 1) * page_size))
                      results)
    ∧ Z.of_nat (length items) <= page_size.
Proof.
  intros Hps. unfold RecipeFilter.paginate_results.
  destruct (page_size =? 0) eqn:E0; [lia|].
  set (n := Z.of_nat (length results)).
  set (tp := (n + page_size - 1) / page_size).
  assert ((tp - 1) * page_size < n <= tp * page_size) as Htp.
  { pose proof (Z.div_mod (n + page_size - 1) page_size ltac:(lia)) as Hdm.
    pose proof (Z.mod_pos_bound (n + page_size - 1) page_size ltac:(lia)) as Hmod.
    fold tp in Hdm. nia. }
  set (cp := if page <? 1 then 1
             else if (tp <? page) && (0 <? tp) then tp else page).
  assert (1 <= cp) as Hcp1.
  { unfold cp. destruct (page <? 1) eqn:E1; [lia|].
    destruct ((tp <? page) && (0 <? tp)) eqn:E2; [|lia].
    apply andb_prop in E2 as [_ E2]. lia. }
  eexists _, _. split; [reflexivity|]. simpl.
  repeat split; try lia.
  - intros Hpos. unfold cp. destruct (page <? 1) eqn:E1; [lia|].
    destruct (tp <? page) eqn:E2, (0 <? tp) eqn:E3; simpl; lia.
  - intros [H1 H2]. unfold cp. destruct (page <? 1) eqn:E1; [lia|].
    destruct (tp <? page) eqn:E2; [lia|done].
  - fold cp. apply py_slice_window; nia.
  - fold cp. rewrite py_slice_window by nia. rewrite length_take. lia.
Qed.

Lemma paginate_results_page_witness :
  1 <= 3
  ∧ ∃ info,
      RecipeFilter.paginate_results [0; 1; 2; 3; 4; 5; 6; 7; 8; 9] 9 3
        = Some ([9], info)
      ∧ RecipeFilter.total_pages info = 4
      ∧ RecipeFilter.current_page info = 4.
Proof.
  assert (1 <= 3) as H by lia. split; [exact H|].
  destruct (paginate_results_page [0; 1; 2; 3; 4; 5; 6; 7; 8; 9] 9 3 H)
    as (items & info & Hp & _).
  vm_compute in Hp. injection Hp as <- <-. by eexists.
Defined.

Lemma paginate_results_in_range {A : Type} (results : list A) (page page_size : Z) :
  1 <= page_size →
  1 <= page <= (Z.of_nat (length results) + page_size - 1) / page_size →
  ∃ info,
    RecipeFilter.paginate_results results page page_size
    = Some (take (Z.to_nat page_size)
              (drop (Z.to_nat ((page - 1) * page_size)) results), info).
Proof.
  intros Hps [H1 H2]. unfold RecipeFilter.paginate_results.
  destruct (page_size =? 0) eqn:E0; [lia|].
  destruct (page <? 1) eqn:E1; [lia|].
  destruct (_ <? page) eqn:E2; [lia|]. simpl.
  eexists. f_equal. f_equal. apply py_slice_window; nia.
Qed.

Lemma take_add_split {A : Type} (l : list A) (n m : nat) :
  take (n + m) l = (take n l ++ take m (drop n l))%list.
Proof.
  revert l; induction n as [|n IH]; intros [|x l]; simpl; try done.
  - by rewrite take_nil.
  - by rewrite IH.
Qed.

Lemma pages_concat {A : Type} (l : list A) (ps k : nat) :
  concat (map (fun i => take ps (drop (i * ps) l)) (seq 0 k)) = take (k * ps) l.
Proof.
  induction k as [|k IH]; [done|].
  rewrite seq_S, map_app, concat_app, IH. simpl. rewrite app_nil_r.
  rewrite (Nat.add_comm ps). symmetry. apply take_add_split.
Qed.

(** X15. With a page size of at least 1 the pages 1, 2, ..., [total_pages]
    returned by [paginate_results], put one after the other, are the
    results: every result is on exactly one page, in order. *)
Theorem paginate_results_partition {A : Type} (results : list A) (page_size : Z) :
  1 <= page_size →
  let total_pages := (Z.of_nat (length results) + page_size - 1) / page_size in
  concat (map (fun page =>
                 match RecipeFilter.paginate_results results page page_size with
                 | Some (items, _) => items
                 | None => []
                 end)
              (seqZ 1 total_pages))
  = results.
Proof.
  intros Hps tp.
  assert ((tp - 1) * page_size < Z.of_nat (length results) <= tp * page_size) as Htp.
  { pose proof (Z.div_mod (Z.of_nat (length results) + page_size - 1) page_size
                  ltac:(lia)) as Hdm.
    pose proof (Z.mod_pos_bound (Z.of_nat (length results) + page_size - 1)
                  page_size ltac:(lia)) as Hmod.
    fold tp in Hdm. nia. }
  assert (0 <= tp) as Htp0 by nia.
  unfold seqZ. rewrite map_map.
  erewrite map_ext_in.
  - rewrite (pages_concat results (Z.to_nat page_size) (Z.to_nat tp)).
    apply take_ge. nia.
  - intros i Hi%in_seq. simpl.
    destruct (paginate_results_in_range results (Z.of_nat i + 1) page_size Hps)
      as [info ->]; [fold tp; lia|].
    f_equal. f_equal. nia.
Qed.

Lemma paginate_results_partition_witness :
  1 <= 3
  ∧ concat (map (fun page =>
                   match RecipeFilter.paginate_results
                           [0; 1; 2; 3; 4; 5; 6; 7; 8; 9] page 3 with
                   | Some (items, _) => items
                   | None => []
                   end)
                (seqZ 1 4))
    = [0; 1; 2; 3; 4; 5; 6; 7; 8; 9].
Proof.
  assert (1 <= 3) as H by lia. split; [exact H|].
  exact (paginate_results_partition [0; 1; 2; 3; 4; 5; 6; 7; 8; 9] 3 H).
Defined.

(** ** Available diet labels *)

Lemma diet_labels_spec (text s : string) :
  s ∈ RecipeFilter.diet_labels text ↔
  s ∈ map PyStr.strip (PyStr.split_comma text) ∧ s ≠ "" ∧ s ≠ "Regular".
Proof.
  unfold RecipeFilter.diet_labels.
  rewrite !list_elem_of_In, filter_In, andb_true_iff, negb_true_iff.
  rewrite String.eqb_neq.
  assert (PyStr.truthy s = true ↔ s ≠ "") as -> by (by destruct s).
  tauto.
Qed.

Lemma collect_diets_spec (metadata : list dict) (diets out : gset string) :
  RecipeFilter.collect_diets metadata diets = Ok out →
  ∀ s, s ∈ out ↔
    s ∈ diets
    ∨ ∃ recipe text, recipe ∈ metadata
        ∧ dict_get recipe "diet_types" (VStr "") = VStr text
        ∧ s ∈ RecipeFilter.diet_labels text.
Proof.
  revert diets; induction metadata as [|recipe rest IH]; intros diets; simpl.
  - intros [= <-] s. split; [by left|].
    intros [?|(? & ? & []%elem_of_nil & _)]; done.
  - destruct (dict_get recipe "diet_types" (VStr "")) as [| | |text] eqn:Ev; simpl.
    + intros H s. rewrite (IH _ H s). split.
      * intros [?|(r & t & Hr & Ht & Hs)]; [by left|right].
        exists r, t. split; [by apply list_elem_of_further|done].
      * intros [?|(r & t & [->|Hr]%elem_of_cons & Ht & Hs)]; [by left|congruence|].
        right. by exists r, t.
    + destruct (negb (z =? 0)); [done|].
      intros H s. rewrite (IH _ H s). split.
      * intros [?|(r & t & Hr & Ht & Hs)]; [by left|right].
        exists r, t. split; [by apply list_elem_of_further|done].
      * intros [?|(r & t & [->|Hr]%elem_of_cons & Ht & Hs)]; [by left|congruence|].
        right. by exists r, t.
    + destruct (negb (Qeq_bool q 0)); [done|].
      intros H s. rewrite (IH _ H s). split.
      * intros [?|(r & t & Hr & Ht & Hs)]; [by left|right].
        exists r, t. split; [by apply list_elem_of_further|done].
      * intros [?|(r & t & [->|Hr]%elem_of_cons & Ht & Hs)]; [by left|congruence|].
        right. by exists r, t.
    + destruct (PyStr.truthy text) eqn:Et.
      * intros H s. rewrite (IH _ H s), elem_of_union, elem_of_list_to_set. split.
        -- intros [[?|Hs]|(r & t & Hr & Ht & Hs)]; [by left| |].
           ++ right. exists recipe, text. split; [apply list_elem_of_here|done].
           ++ right. exists r, t. split; [by apply list_elem_of_further|done].
        -- intros [?|(r & t & [->|Hr]%elem_of_cons & Ht & Hs)]; [by left; left| |].
           ++ left; right. congruence.
           ++ right. by exists r, t.
      * assert (text = "") as -> by (by destruct text).
        intros H s. rewrite (IH _ H s). split.
        -- intros [?|(r & t & Hr & Ht & Hs)]; [by left|right].
           exists r, t. split; [by apply list_elem_of_further|done].
        -- intros [?|(r & t & [->|Hr]%elem_of_cons & Ht & Hs)]; [by left| |].
           ++ rewrite Ev in Ht. injection Ht as <-.
              by apply elem_of_nil in Hs.
           ++ right. by exists r, t.
Qed.

(** X16. The list of available diets is in ascending string order and
    without repetition; it never holds ["Regular"] or the empty label; and
    a label is in it exactly when it is one of the trimmed, comma-separated
    pieces of some recipe's ['diet_types'] text (other than those two). *)
Theorem extract_diets_sorted_labels (self : RecipeFilter.t) (out : list string) :
  RecipeFilter._extract_diets self = Ok out →
  Sorted String.le out
  ∧ NoDup out
  ∧ ("Regular" ∉ out)
  ∧ ("" ∉ out)
  ∧ ∀ s, s ∈ out ↔
      ∃ recipe text, recipe ∈ RecipeFilter.recipes_metadata self
        ∧ dict_get recipe "diet_types" (VStr "") = VStr text
        ∧ s ∈ map PyStr.strip (PyStr.split_comma text)
        ∧ s ≠ "" ∧ s ≠ "Regular".
Proof.
  unfold RecipeFilter._extract_diets.
  destruct (RecipeFilter.collect_diets _ ∅) as [diets|] eqn:E; simpl; [|done].
  intros [= <-].
  pose proof (collect_diets_spec _ _ _ E) as Hspec.
  assert (∀ s, s ∈ merge_sort String.le (elements diets) ↔
            ∃ recipe text, recipe ∈ RecipeFilter.recipes_metadata self
              ∧ dict_get recipe "diet_types" (VStr "") = VStr text
              ∧ s ∈ map PyStr.strip (PyStr.split_comma text)
              ∧ s ≠ "" ∧ s ≠ "Regular") as Hmem.
  { intros s. rewrite merge_sort_Permutation, elem_of_elements, Hspec. split.
    - intros [[]%elem_of_empty|(r & t & Hr & Ht & Hs%diet_labels_spec)].
      by exists r, t.
    - intros (r & t & Hr & Ht & Hs). right. exists r, t.
      by rewrite diet_labels_spec. }
  split; [apply Sorted_merge_sort, _|].
  split; [rewrite merge_sort_Permutation; apply NoDup_elements|].
  split; [intros (? & ? & _ & _ & _ & _ & ?)%Hmem; done|].
  split; [intros (? & ? & _ & _ & _ & ? & _)%Hmem; done|].
  exact Hmem.
Qed.

Lemma extract_diets_sorted_labels_witness :
  RecipeFilter._extract_diets {| RecipeFilter.recipes_metadata := sample_metadata |}
    = Ok ["Gluten-Free"; "Vegan"]
  ∧ Sorted String.le ["Gluten-Free"; "Vegan"]
  ∧ ("Regular" ∉ ["Gluten-Free"; "Vegan"]).
Proof.
  assert (RecipeFilter._extract_diets
            {| RecipeFilter.recipes_metadata := sample_metadata |}
          = Ok ["Gluten-Free"; "Vegan"]) as H by (vm_compute; reflexivity).
  destruct (extract_diets_sorted_labels _ _ H) as (Hs & _ & Hr & _).
  exact (conj H (conj Hs Hr)).
Defined.

(** ** Looking a recipe up and finding similar ones *)

Lemma find_recipe_spec (metadata : list dict) (recipe_id : Z) :
  match find_recipe metadata recipe_id with
  | Some recipe =>
      ∃ i : nat,
        metadata !! i = Some recipe
        ∧ eq_int (dict_get recipe "id" VNone) recipe_id = true
        ∧ ∀ (j : nat) r, (j < i)%nat → metadata !! j = Some r →
            eq_int (dict_get r "id" VNone) recipe_id = false
  | None =>
      Forall (fun r => eq_int (dict_get r "id" VNone) recipe_id = false) metadata
  end.
Proof.
  induction metadata as [|r rest IH]; simpl; [constructor|].
  destruct (eq_int (dict_get r "id" VNone) recipe_id) eqn:E.
  - exists 0%nat. repeat split; [done|]. intros j ? Hj. lia.
  - destruct (find_recipe rest recipe_id) as [recipe|].
    + destruct IH as (i & Hi & He & Hbefore). exists (S i). repeat split; [done..|].
      intros [|j] r' Hj; simpl; [by intros [= <-]|].
      apply Hbefore. lia.
    + by constructor.
Qed.

(** X17. [get_recipe_by_id] of either back end returns the first row of
    the metadata whose ['id'] equals the id asked for, and [None] exactly
    when no row has that id. *)
Theorem recipe_by_id_is_first_match :
  (∀ self recipe_id found,
     TFIDFRecommender.get_recipe_by_id self recipe_id = Ok found →
     match found with
     | Some recipe =>
         ∃ i : nat,
           TFIDFRecommender._recipe_metadata self !! i = Some recipe
           ∧ eq_int (dict_get recipe "id" VNone) recipe_id = true
           ∧ ∀ (j : nat) r, (j < i)%nat →
               TFIDFRecommender._recipe_metadata self !! j = Some r →
               eq_int (dict_get r "id" VNone) recipe_id = false
     | None =>
         Forall (fun r => eq_int (dict_get r "id" VNone) recipe_id = false)
                (TFIDFRecommender._recipe_metadata self)
     end)
  ∧ (∀ self recipe_id found,
     EmbeddingRecommender.get_recipe_by_id self recipe_id = Ok found →
     match found with
     | Some recipe =>
         ∃ i : nat,
           EmbeddingRecommender._recipe_metadata self !! i = Some recipe
           ∧ eq_int (dict_get recipe "id" VNone) recipe_id = true
           ∧ ∀ (j : nat) r, (j < i)%nat →
               EmbeddingRecommender._recipe_metadata self !! j = Some r →
               eq_int (dict_get r "id" VNone) recipe_id = false
     | None =>
         Forall (fun r => eq_int (dict_get r "id" VNone) recipe_id = false)
                (EmbeddingRecommender._recipe_metadata self)
     end).
Proof.
  split; intros self recipe_id found.
  - unfold TFIDFRecommender.get_recipe_by_id.
    destruct (TFIDFRecommender.load_models self); simpl; [|done].
    intros [= <-]. apply find_recipe_spec.
  - unfold EmbeddingRecommender.get_recipe_by_id.
    destruct (EmbeddingRecommender.load_models self); simpl; [|done].
    intros [= <-]. apply find_recipe_spec.
Qed.

Lemma recipe_by_id_is_first_match_witness :
  ∃ found,
    TFIDFRecommender.get_recipe_by_id sample_tfidf 8 = Ok found
    ∧ found = None
    ∧ Forall (fun r => eq_int (dict_get r "id" VNone) 8 = false)
             (TFIDFRecommender._recipe_metadata sample_tfidf).
Proof.
  exists None.
  assert (TFIDFRecommender.get_recipe_by_id sample_tfidf 8 = Ok None) as H
    by (vm_compute; reflexivity).
  exact (conj H (conj eq_refl (proj1 recipe_by_id_is_first_match _ _ _ H))).
Defined.

Lemma without_recipe_spec (recipe_id : Z) (recommendations : list dict) (n : Z) :
  Forall (fun d => eq_int (dict_get d "recipe_id" VNone) recipe_id = false)
         (py_slice_to (without_recipe recipe_id recommendations) n)
  ∧ (0 <= n →
     Z.of_nat (length (py_slice_to (without_recipe recipe_id recommendations) n)) <= n).
Proof.
  split.
  - eapply Forall_prefix; [apply py_slice_to_prefix|].
    unfold without_recipe. apply Forall_forall. intros d Hd.
    apply list_elem_of_In, filter_In in Hd as [_ Hd]. by apply negb_true_iff.
  - intros Hn. unfold py_slice_to. destruct (0 <=? n) eqn:E; [|lia].
    rewrite length_take. lia.
Qed.

(** X18. [get_similar_recipes] of either back end never returns the
    recipe it was asked about, returns at most [top_n] recipes (for a
    [top_n] that is not negative), and returns the empty list for an id
    that no row has. *)
Theorem similar_recipes_exclude_reference :
  (∀ self recipe_id top_n out,
     TFIDFRecommender.get_similar_recipes self recipe_id top_n = Ok out →
     Forall (fun d => eq_int (dict_get d "recipe_id" VNone) recipe_id = false) out
     ∧ (0 <= top_n → Z.of_nat (length out) <= top_n)
     ∧ (find_recipe (TFIDFRecommender._recipe_metadata self) recipe_id = None →
        out = []))
  ∧ (∀ self recipe_id top_n out,
     EmbeddingRecommender.get_similar_recipes self recipe_id top_n = Ok out →
     Forall (fun d => eq_int (dict_get d "recipe_id" VNone) recipe_id = false) out
     ∧ (0 <= top_n → Z.of_nat (length out) <= top_n)
     ∧ (find_recipe (EmbeddingRecommender._recipe_metadata self) recipe_id = None →
        out = [])).
Proof.
  split; intros self recipe_id top_n out.
  - unfold TFIDFRecommender.get_similar_recipes, TFIDFRecommender.get_recipe_by_id.
    destruct (TFIDFRecommender.load_models self) as [[]|]; simpl; [|done].
    destruct (find_recipe _ recipe_id) as [recipe|].
    + destruct (bool_decide (recipe = ∅)).
      { intros [= <-]. repeat split; [constructor|simpl; lia]. }
      destruct (stripped_pieces _) as [ingredients|]; simpl; [|done].
      destruct (TFIDFRecommender.get_top_recommendations _ _ _ _ _ _)
        as [recommendations|]; simpl; [|done].
      intros [= <-].
      destruct (without_recipe_spec recipe_id recommendations top_n) as [H1 H2].
      repeat split; [done..|]. intros [=].
    + intros [= <-]. repeat split; [constructor|simpl; lia].
  - unfold EmbeddingRecommender.get_similar_recipes,
      EmbeddingRecommender.get_recipe_by_id.
    destruct (EmbeddingRecommender.load_models self) as [[]|]; simpl; [|done].
    destruct (find_recipe _ recipe_id) as [recipe|].
    + destruct (bool_decide (recipe = ∅)).
      { intros [= <-]. repeat split; [constructor|simpl; lia]. }
      destruct (stripped_pieces _) as [ingredients|]; simpl; [|done].
      destruct (EmbeddingRecommender.get_top_recommendations_fast _ _ _ _ _ _)
        as [recommendations|]; simpl; [|done].
      intros [= <-].
      destruct (without_recipe_spec recipe_id recommendations top_n) as [H1 H2].
      repeat split; [done..|]. intros [=].
    + intros [= <-]. repeat split; [constructor|simpl; lia].
Qed.

Lemma similar_recipes_exclude_reference_witness :
  ∃ out,
    EmbeddingRecommender.get_similar_recipes
      {| EmbeddingRecommender.load_models := Ok ();
         EmbeddingRecommender._recipe_metadata :=
           [<["ingredients_cleaned" := VStr "chicken,garlic"]>
              (sample_recipe 7 "Spaghetti Carbonara" "Italian" "Regular");
            sample_recipe 3 "Vegan Buddha Bowl" "Other" "Vegan,Gluten-Free"];
         EmbeddingRecommender.faiss_search := fun _ _ => Ok [(1 # 1, 0); (1 # 2, 1)];
         EmbeddingRecommender.numpy := exact_float32_ops |}
      7 5 = Ok out
    ∧ recipe_ids out = [VInt 3]
    ∧ 0 <= 5
    ∧ Z.of_nat (length out) <= 5.
Proof.
  set (self :=
    {| EmbeddingRecommender.load_models := Ok ();
       EmbeddingRecommender._recipe_metadata :=
         [<["ingredients_cleaned" := VStr "chicken,garlic"]>
            (sample_recipe 7 "Spaghetti Carbonara" "Italian" "Regular");
          sample_recipe 3 "Vegan Buddha Bowl" "Other" "Vegan,Gluten-Free"];
       EmbeddingRecommender.faiss_search := fun _ _ => Ok [(1 # 1, 0); (1 # 2, 1)];
       EmbeddingRecommender.numpy := exact_float32_ops |}).
  assert (recipe_ids <$> EmbeddingRecommender.get_similar_recipes self 7 5
          = Ok [VInt 3]) as H by (vm_compute; reflexivity).
  apply fmap_Ok_inv in H as (out & Hout & Hids).
  assert (0 <= 5) as Hn by lia.
  exists out.
  exact (conj Hout (conj Hids (conj Hn
    (proj1 (proj2 (proj2 similar_recipes_exclude_reference _ _ _ _ Hout)) Hn)))).
Defined.

(** ** The fast dense search *)

Lemma fast_recommendation_score (np : float32_ops) (recipe : dict) (idx : Z)
    (sim : Q) :
  similarity_score (fast_recommendation np recipe idx sim) = sim.
Proof. done. Qed.

Lemma collect_fast_bounded np metadata min_score cf df top_n hits acc out :
  Z.of_nat (length acc) < top_n →
  Forall (fun d => float32_lt np (similarity_score d) min_score = false) acc →
  collect_fast np metadata min_score cf df top_n hits acc = Ok out →
  Z.of_nat (length out) <= top_n
  ∧ Forall (fun d => float32_lt np (similarity_score d) min_score = false) out
  ∧ acc `prefix_of` out.
Proof.
  revert acc; induction hits as [|[sim idx] rest IH]; intros acc Hlen Hacc; simpl.
  - intros [= <-]. repeat split; [lia|done..].
  - destruct (float32_lt np sim min_score) eqn:Es; simpl; [by apply IH|].
    destruct (py_index metadata idx) as [recipe|]; simpl; [|done].
    destruct (cuisine_rejects cf recipe) as [[|]|]; simpl; [by apply IH| |done].
    destruct (diet_rejects df recipe) as [[|]|]; simpl; [by apply IH| |done].
    assert (Forall (fun d => float32_lt np (similarity_score d) min_score = false)
              (acc ++ [fast_recommendation np recipe idx sim])) as Hacc'.
    { apply Forall_app. split; [done|]. constructor; [|done].
      by rewrite fast_recommendation_score. }
    destruct (top_n <=? Z.of_nat (length (acc ++ [fast_recommendation np recipe idx sim])))
      eqn:Ebreak.
    + intros [= <-]. rewrite length_app in *. simpl in *.
      repeat split; [lia|done|by apply prefix_app_r].
    + intros H. apply IH in H as (H1 & H2 & H3); [|lia|done].
      repeat split; [done..|].
      etransitivity; [|exact H3]. by apply prefix_app_r.
Qed.

(** X19. [get_top_recommendations_fast], for a [top_n] of at least 1,
    returns at most [top_n] recommendations; every similarity it returns
    is one that NumPy's comparison [sim < min_score] did not place below
    [min_score]; and for a query without tokens it returns the empty list
    without asking the index. *)
Theorem fast_recommendations_bounded (self : EmbeddingRecommender.t)
    (ingredients : list string) (top_n : Z) (min_score : Q)
    (cf df : option string) (out : list dict) :
  EmbeddingRecommender.get_top_recommendations_fast self ingredients top_n
    min_score cf df = Ok out →
  (1 <= top_n →
     Z.of_nat (length out) <= top_n
     ∧ Forall (fun d => float32_lt (EmbeddingRecommender.numpy self)
                          (similarity_score d) min_score = false) out)
  ∧ (cleaned_ingredients ingredients = [] → out = []).
Proof.
  unfold EmbeddingRecommender.get_top_recommendations_fast,
    EmbeddingRecommender._preprocess_ingredients.
  destruct (EmbeddingRecommender.load_models self); simpl; [|done].
  destruct (PyStr.truthy (PyStr.join " " (cleaned_ingredients ingredients))) eqn:Et;
    simpl.
  - destruct (EmbeddingRecommender.faiss_search self _ _) as [hits|]; simpl; [|done].
    intros H. split.
    + intros Hn. apply collect_fast_bounded in H as (H1 & H2 & _);
        [done|simpl; lia|constructor].
    + intros Hc. rewrite Hc in Et. done.
  - intros [= <-]. split; [|done]. intros Hn. split; [simpl; lia|constructor].
Qed.

Lemma fast_recommendations_bounded_witness :
  ∃ out,
    EmbeddingRecommender.get_top_recommendations_fast sample_embedding
      ["chicken"] 2 (1 # 3) None None = Ok out
    ∧ recipe_ids out = [VInt 3; VInt 7]
    ∧ 1 <= 2
    ∧ Z.of_nat (length out) <= 2.
Proof.
  assert (recipe_ids <$> EmbeddingRecommender.get_top_recommendations_fast
            sample_embedding ["chicken"] 2 (1 # 3) None None
          = Ok [VInt 3; VInt 7]) as H by (vm_compute; reflexivity).
  apply fmap_Ok_inv in H as (out & Hout & Hids).
  assert (1 <= 2) as Hn by lia.
  exists out.
  exact (conj Hout (conj Hids (conj Hn
    (proj1 (proj1 (fast_recommendations_bounded _ _ _ _ _ _ _ Hout) Hn))))).
Defined.

(** ** Ranking row numbers with match percentages *)

Lemma match_percentage_of_unit (user_ingredients : list string) (v : value) (q : Q) :
  RecipeFilter.match_percentage_of user_ingredients v = Ok q → (0 <= q <= 1)%Q.
Proof.
  unfold RecipeFilter.match_percentage_of.
  destruct (negb (value_truthy v)); [intros [= <-]; lra|].
  destruct v; try done. intros [= <-]. apply match_percentage_unit.
Qed.

Lemma scored_recipes_spec (self : RecipeFilter.t) (user_ingredients : list string)
    (pairs : list (Z * Q)) (l : list (Z * Q * Q)) :
  RecipeFilter.scored_recipes self user_ingredients pairs = Ok l →
  Forall (fun x : Z * Q * Q =>
            - Z.of_nat (length (RecipeFilter.recipes_metadata self)) <= x.1.1
              < Z.of_nat (length (RecipeFilter.recipes_metadata self))
            ∧ (0 <= x.2 <= 1)%Q
            ∧ x.1 ∈ pairs) l.
Proof.
  revert l; induction pairs as [|[idx sim] rest IH]; intros l; simpl.
  { intros [= <-]. constructor. }
  set (n := Z.of_nat (length (RecipeFilter.recipes_metadata self))) in *.
  assert (∀ l', RecipeFilter.scored_recipes self user_ingredients rest = Ok l' →
            Forall (fun x : Z * Q * Q =>
                      - n <= x.1.1 < n ∧ (0 <= x.2 <= 1)%Q
                      ∧ x.1 ∈ (idx, sim) :: rest) l') as Hrest.
  { intros l' Hl'%IH. eapply Forall_impl; [exact Hl'|].
    intros x (? & ? & ?). split; [done|]. split; [done|].
    by apply list_elem_of_further. }
  destruct (n <=? idx) eqn:En; [apply Hrest|].
  destruct (py_index (RecipeFilter.recipes_metadata self) idx) as [recipe|] eqn:Ei;
    simpl; [|done].
  destruct (RecipeFilter.match_percentage_of _ _) as [q|] eqn:Eq; simpl; [|done].
  destruct (RecipeFilter.scored_recipes self user_ingredients rest) as [tail|] eqn:Et;
    simpl; [|done].
  intros [= <-]. constructor; [|by apply Hrest]. simpl. repeat split.
  - unfold py_index in Ei. fold n in Ei.
    destruct (0 <=? idx) eqn:E0; [lia|].
    destruct (0 <=? n + idx) eqn:E1; [lia|done].
  - lia.
  - by apply match_percentage_of_unit in Eq as [? _].
  - by apply match_percentage_of_unit in Eq as [_ ?].
  - apply list_elem_of_here.
Qed.



(** ** The two diet tests and the two cuisine tests *)

Lemma string_app_assoc (a b c : string) :
  ((a ++ b) ++ c)%string = (a ++ b ++ c)%string.
Proof. induction a as [|x a IH]; [done|]. exact (f_equal (String x) IH). Qed.

Lemma string_app_nil_r (a : string) : (a ++ "")%string = a.
Proof. induction a as [|x a IH]; [done|]. exact (f_equal (String x) IH). Qed.

Lemma occurs_in_refl (s : string) : occurs_in s s.
Proof. exists "", "". simpl. by rewrite string_app_nil_r. Qed.

Lemma occurs_in_trans (a b c : string) :
  occurs_in a b → occurs_in b c → occurs_in a c.
Proof.
  intros (p1 & q1 & ->) (p2 & q2 & ->).
  exists (p2 ++ p1)%string, (q1 ++ q2)%string.
  by rewrite !string_app_assoc.
Qed.

Lemma occurs_in_cons (c : ascii) (a s : string) :
  occurs_in a s → occurs_in a (String c s).
Proof. intros (p & q & ->). by exists (String c p), q. Qed.

Lemma lower_app (a b : string) :
  PyStr.lower (a ++ b) = (PyStr.lower a ++ PyStr.lower b)%string.
Proof.
  induction a as [|x a IH]; [done|].
  exact (f_equal (String (PyStr.lower_char x)) IH).
Qed.

Lemma occurs_in_lower (a s : string) :
  occurs_in a s → occurs_in (PyStr.lower a) (PyStr.lower s).
Proof.
  intros (p & q & ->). exists (PyStr.lower p), (PyStr.lower q).
  by rewrite !lower_app.
Qed.

Lemma starts_with_app (p post : string) : PyStr.starts_with p (p ++ post) = true.
Proof.
  induction p as [|x p IH]; simpl; [done|]. by rewrite Ascii.eqb_refl.
Qed.

Lemma contains_occurs_in (sub s : string) :
  occurs_in sub s → PyStr.contains sub s = true.
Proof.
  intros (pre & post & ->). induction pre as [|x pre IH].
  - simpl. destruct (sub ++ post)%string eqn:E; simpl;
      rewrite <- E, starts_with_app; done.
  - simpl. rewrite IH. apply orb_true_r.
Qed.

Lemma lstrip_occurs_in (s : string) : occurs_in (PyStr.lstrip s) s.
Proof.
  induction s as [|c r IH]; simpl; [apply occurs_in_refl|].
  destruct (PyStr.is_space c); [by apply occurs_in_cons|apply occurs_in_refl].
Qed.

Lemma rstrip_prefix (s : string) : ∃ post, s = (PyStr.rstrip s ++ post)%string.
Proof.
  induction s as [|c r [post IH]]; simpl; [by exists ""|].
  destruct (PyStr.rstrip r) as [|c' r'] eqn:E.
  - destruct (PyStr.is_space c).
    + by exists (String c r).
    + exists r. done.
  - exists post. exact (f_equal (String c) IH).
Qed.

Lemma strip_occurs_in (s : string) : occurs_in (PyStr.strip s) s.
Proof.
  unfold PyStr.strip. eapply occurs_in_trans; [|apply lstrip_occurs_in].
  destruct (rstrip_prefix (PyStr.lstrip s)) as [post Hpost].
  exists "", post. simpl. done.
Qed.

Lemma split_comma_pieces (s : string) :
  (∃ post, s = (hd "" (PyStr.split_comma s) ++ post)%string)
  ∧ ∀ p, p ∈ PyStr.split_comma s → occurs_in p s.
Proof.
  induction s as [|c r [[post Hhd] IH]]; simpl.
  { split; [by exists ""|]. intros p ->%list_elem_of_singleton. apply occurs_in_refl. }
  destruct (Ascii.eqb c ",") eqn:Ec.
  - split; [by exists (String c r)|].
    intros p [->|Hp]%elem_of_cons.
    + by exists "", (String c r).
    + by apply occurs_in_cons, IH.
  - destruct (PyStr.split_comma r) as [|p0 ps] eqn:E.
    { by destruct (split_comma_nonempty r). }
    simpl in Hhd. split.
    + exists post. exact (f_equal (String c) Hhd).
    + intros p [->|Hp]%elem_of_cons.
      * exists "", post. exact (f_equal (String c) Hhd).
      * apply occurs_in_cons, IH. by apply list_elem_of_further.
Qed.

(** X21. For a diet filter, [filter_recipes] is at least as strict as the
    test of the two back ends: a recipe that [filter_recipes] keeps passes
    the back ends' test too. *)
Theorem diet_membership_implies_substring (diet_filter : option string)
    (recipe : dict) :
  RecipeFilter.diet_keeps diet_filter recipe = Ok true →
  diet_rejects diet_filter recipe = Ok false.
Proof.
  unfold RecipeFilter.diet_keeps, diet_rejects.
  destruct (filter_given diet_filter) as [f|]; [|done].
  destruct (dict_get recipe "diet_types" (VStr "")) as [| | |diets]; simpl; try done.
  intros [= H]. apply andb_prop in H as [_ Hin%bool_decide_eq_true].
  f_equal. apply negb_false_iff, contains_occurs_in.
  unfold RecipeFilter.diet_list in Hin.
  apply list_elem_of_fmap in Hin as (p & -> & Hp).
  apply occurs_in_lower.
  eapply occurs_in_trans; [apply strip_occurs_in|].
  eapply occurs_in_trans; [by apply split_comma_pieces|apply strip_occurs_in].
Qed.

Lemma diet_membership_implies_substring_witness :
  RecipeFilter.diet_keeps (Some "gluten-free")
    (sample_recipe 3 "Vegan Buddha Bowl" "Other" "Vegan, Gluten-Free ") = Ok true
  ∧ diet_rejects (Some "gluten-free")
      (sample_recipe 3 "Vegan Buddha Bowl" "Other" "Vegan, Gluten-Free ") = Ok false.
Proof.
  assert (RecipeFilter.diet_keeps (Some "gluten-free")
            (sample_recipe 3 "Vegan Buddha Bowl" "Other" "Vegan, Gluten-Free ")
          = Ok true) as H by (vm_compute; reflexivity).
  exact (conj H (diet_membership_implies_substring _ _ H)).
Defined.

(** X22. For a cuisine filter the two tests agree on every recipe whose
    cuisine text has no white space around it (or that has no cuisine):
    [filter_recipes] keeps the recipe exactly when the back ends do not
    reject it. *)
Theorem cuisine_tests_agree (cuisine_filter : option string) (recipe : dict)
    (cuisine : string) :
  dict_get recipe "cuisine" (VStr "") = VStr cuisine →
  PyStr.strip cuisine = cuisine →
  ∃ rejected,
    cuisine_rejects cuisine_filter recipe = Ok rejected
    ∧ RecipeFilter.cuisine_keeps cuisine_filter recipe = Ok (negb rejected).
Proof.
  intros Hc Hs. unfold cuisine_rejects, RecipeFilter.cuisine_keeps.
  destruct (filter_given cuisine_filter) as [f|] eqn:Ef; [|by exists false].
  rewrite Hc. simpl. rewrite Hs. eexists. split; [done|].
  f_equal. rewrite negb_involutive.
  destruct (String.eqb (PyStr.lower cuisine) (PyStr.lower f)) eqn:E;
    [|apply andb_false_r].
  rewrite andb_true_r. apply String.eqb_eq in E.
  assert (PyStr.truthy f = true) as Hf.
  { unfold filter_given in Ef. destruct cuisine_filter as [g|]; [|done].
    destruct (PyStr.truthy g) eqn:Eg; [|done]. by injection Ef as <-. }
  by rewrite <- lower_truthy, E, lower_truthy.
Qed.

Lemma cuisine_tests_agree_witness :
  dict_get (sample_recipe 7 "Spaghetti Carbonara" "Italian" "Regular")
    "cuisine" (VStr "") = VStr "Italian"
  ∧ PyStr.strip "Italian" = "Italian"
  ∧ ∃ rejected,
      cuisine_rejects (Some "ITALIAN")
        (sample_recipe 7 "Spaghetti Carbonara" "Italian" "Regular") = Ok rejected
      ∧ RecipeFilter.cuisine_keeps (Some "ITALIAN")
          (sample_recipe 7 "Spaghetti Carbonara" "Italian" "Regular")
        = Ok (negb rejected).
Proof.
  assert (dict_get (sample_recipe 7 "Spaghetti Carbonara" "Italian" "Regular")
            "cuisine" (VStr "") = VStr "Italian") as Hc by reflexivity.
  assert (PyStr.strip "Italian" = "Italian") as Hs by reflexivity.
  exact (conj Hc (conj Hs (cuisine_tests_agree (Some "ITALIAN") _ _ Hc Hs))).
Defined.
